(** * Schimidt Trader System PRO: the prediction core

    A shallow embedding of [server/prediction/prediction_engine.py],
    [server/prediction/amplitude_predictor.py] and
    [server/prediction/engine_server.py], and the properties their
    specification states about them.

    Numbers.  In the modules [PredictionEngine], [AmplitudePredictor] and
    [EngineServer] Python's [float] is idealised as an exact rational
    ([Q]): every formula of the engines is a composition of [+], [-], [*],
    guarded [/], [abs], [min], [max] and comparisons, all of which are
    computable on [Q].  Rounding error, [inf] and [nan] are outside that
    model, and so are the properties that rounding decides.  The two
    functions whose specification turns on a comparison of rounded values,
    [detectar_fase] and [algoritmo_fibonacci_amplitude], are embedded a
    second time in module [Binary64], over the kernel's binary64 numbers;
    what is stated about them is stated there.  Python's [int] is [Z].
    Equality of results is Leibniz equality of the records the functions
    build; equality of rationals is [Qeq]. *)

From Stdlib Require Import PrimFloat FloatOps SpecFloat.
From Stdlib Require Import QArith Qround Qabs ZArith String Ascii List Bool Lia Lqa.
Import ListNotations.

Set Warnings "-inexact-float".

Open Scope Q_scope.

(** * Python values and builtins used by the engines *)
Module Py.

(** Outcome of a Python expression: a value, or a raised exception
    carrying [str(e)]. *)
Inductive exc (A : Type) : Type :=
| Ret (a : A)
| Raise (msg : string).
Arguments Ret {A} a.
Arguments Raise {A} msg.

Definition bind {A B} (m : exc A) (k : A -> exc B) : exc B :=
  match m with
  | Ret a => k a
  | Raise e => Raise e
  end.

(** An argument on which the code calls [float(...)]: either something
    the conversion accepts (a number, or a string that spells one), with
    its value, or something it rejects, with the exception's message. *)
Inductive pyval : Type :=
| Numeric (q : Q)
| Malformed (msg : string).

Definition float (v : pyval) : exc Q :=
  match v with
  | Numeric q => Ret q
  | Malformed msg => Raise msg
  end.

Definition Qltb (x y : Q) : bool := negb (Qle_bool y x).
Definition Qgtb (x y : Q) : bool := Qltb y x.
Definition Qgeb (x y : Q) : bool := Qle_bool y x.

(** [min(a, b)] and [max(a, b)] of two numbers. *)
Definition min (a b : Q) : Q := if Qltb b a then b else a.
Definition max (a b : Q) : Q := if Qltb a b then b else a.

(** [np.mean] / [statistics.mean] of a non-empty sample. *)
Definition sum (l : list Q) : Q := fold_left Qplus l 0.
Definition mean (l : list Q) : Q := sum l / inject_Z (Z.of_nat (length l)).

(** [round(x, ndigits)]: nearest multiple of [10^-ndigits], ties to the
    even neighbour. *)
Definition round_half_even (x : Q) : Z :=
  let f := Qfloor x in
  let d := x - inject_Z f in
  if Qltb d (1 # 2) then f
  else if Qltb (1 # 2) d then (f + 1)%Z
  else if Z.even f then f else (f + 1)%Z.

Definition round (x : Q) (ndigits : nat) : Q :=
  let s := inject_Z (10 ^ Z.of_nat ndigits) in
  inject_Z (round_half_even (x * s)) / s.

(** [int(x)] of a float: truncation towards zero. *)
Definition int (x : Q) : Z :=
  if Qltb x 0 then Qceiling x else Qfloor x.

(** [str(k)] of an optional string ([None] prints as its name). *)
Definition str_opt (k : option string) : string :=
  match k with
  | Some s => s
  | None => "None"
  end.

(** [int(d)] of a one-character string. *)
Definition int_of_char (c : ascii) : exc Z :=
  let n := nat_of_ascii c in
  if ((48 <=? n) && (n <=? 57))%nat then Ret (Z.of_nat (n - 48))
  else Raise "invalid literal for int()".

Fixpoint mapM {A B} (f : A -> exc B) (l : list A) : exc (list B) :=
  match l with
  | [] => Ret []
  | a :: l' => bind (f a) (fun b => bind (mapM f l') (fun bs => Ret (b :: bs)))
  end.

Definition chars (s : string) : list ascii := list_ascii_of_string s.

(** [s.replace('.', '')] *)
Definition remove_dots (cs : list ascii) : list ascii :=
  filter (fun c => negb (Ascii.eqb c ".")) cs.

(** [s[-n:]] *)
Definition last_n (n : nat) (cs : list ascii) : list ascii :=
  skipn (length cs - n) cs.

(** [s.split('.')[-1]]: what follows the last dot (all of [s] if none). *)
Fixpoint after_last_dot (cs : list ascii) : list ascii :=
  match cs with
  | [] => []
  | c :: cs' =>
      if existsb (fun d => Ascii.eqb d ".") cs' then after_last_dot cs'
      else if Ascii.eqb c "." then cs' else cs
  end.

(** [l[-1]], when there is one. *)
Fixpoint last_item {A} (l : list A) : option A :=
  match l with
  | [] => None
  | x :: l' => match l' with [] => Some x | _ :: _ => last_item l' end
  end.

Definition zsum (l : list Z) : Z := fold_left Z.add l 0%Z.

End Py.

Import Py.

Notation "x <- m ;; k" := (Py.bind m (fun x => k))
  (at level 61, m at next level, right associativity).

(** A historical candle: a dict whose keys may be absent and whose values
    are numbers. *)
Record Candle : Type := mkCandle {
  abertura : option Q;
  maxima : option Q;
  minima : option Q;
  fechamento : option Q
}.

(** [repr(key)] of a string key without quotes of its own: what
    [str(KeyError(key))] is. *)
Definition repr (key : string) : string := ("'" ++ key ++ "'")%string.

(** [c[key]]: [KeyError] when absent. *)
Definition item (key : string) (v : option Q) : exc Q :=
  match v with
  | Some q => Ret q
  | None => Raise (repr key)
  end.

(** [c.get(key, default)] *)
Definition get_default (v : option Q) (default : Q) : Q :=
  match v with
  | Some q => q
  | None => default
  end.

(** * [prediction_engine.py]: class [PredictionEngine] *)
Module PredictionEngine.

(** The dict [fazer_predicao] returns on success and appends to the
    history. *)
Record Predicao : Type := mkPredicao {
  fechamento_predito : Q;
  cor_predita : string;
  posicao : string;
  fase_usada : Z;
  algoritmo : string;
  timestamp : string;
  abertura_usada : Q;
  maxima_usada : Q;
  minima_usada : Q
}.

Record Estatisticas : Type := mkEstatisticas {
  total_predicoes : Z;
  acertos : Z;
  assertividade : Q
}.

(** The instance attributes. *)
Record engine : Type := mkEngine {
  fase_detectada : option Z;
  chave_ativa_fase1 : option string;
  historico_predicoes : list Predicao;
  estatisticas : Estatisticas
}.

(** [__init__] *)
Definition init : engine :=
  {| fase_detectada := None;
     chave_ativa_fase1 := None;
     historico_predicoes := [];
     estatisticas := {| total_predicoes := 0; acertos := 0; assertividade := 0 |} |}.

Definition set_fase (self : engine) (f : option Z) : engine :=
  {| fase_detectada := f;
     chave_ativa_fase1 := chave_ativa_fase1 self;
     historico_predicoes := historico_predicoes self;
     estatisticas := estatisticas self |}.

Definition set_chave (self : engine) (k : option string) : engine :=
  {| fase_detectada := fase_detectada self;
     chave_ativa_fase1 := k;
     historico_predicoes := historico_predicoes self;
     estatisticas := estatisticas self |}.

Definition append_historico (self : engine) (p : Predicao) : engine :=
  {| fase_detectada := fase_detectada self;
     chave_ativa_fase1 := chave_ativa_fase1 self;
     historico_predicoes := historico_predicoes self ++ [p];
     estatisticas := estatisticas self |}.

Definition set_estatisticas (self : engine) (s : Estatisticas) : engine :=
  {| fase_detectada := fase_detectada self;
     chave_ativa_fase1 := chave_ativa_fase1 self;
     historico_predicoes := historico_predicoes self;
     estatisticas := s |}.

(** [detectar_fase]: the phase, and the instance afterwards. *)
Definition detectar_fase (dados : list Candle) (self : engine) : Z * engine :=
  match dados with
  | [] => (1%Z, self)
  | _ :: _ =>
      let aberturas := map (fun candle => get_default (abertura candle) 0) dados in
      let media_abertura := Py.mean aberturas in
      let fase := if Qgtb media_abertura 1000 then 2%Z else 1%Z in
      (fase, set_fase self (Some fase))
  end.

(** One iteration of the loop of [_testar_chave_fase1] on the pair
    [(dados[i-1], dados[i])]: whether prediction and realised colour
    agree, or the exception that skips the pair. *)
Definition testar_par (funcao_chave : Q -> exc Q)
           (candle_anterior candle_atual : Candle) : exc bool :=
  abertura_ <- item "abertura" (abertura candle_anterior) ;;
  fechamento_real <- item "fechamento" (fechamento candle_atual) ;;
  chave_valor <- funcao_chave abertura_ ;;
  let predicao_cor := if Qgtb chave_valor 0.5 then 1%Z else 0%Z in
  abertura_atual <- item "abertura" (abertura candle_atual) ;;
  let cor_real := if Qgtb fechamento_real abertura_atual then 1%Z else 0%Z in
  Ret (predicao_cor =? cor_real)%Z.

(** Body of [for i in range(1, len(dados))], on the counters
    [(acertos, total)]. *)
Definition testar_passo (dados : list Candle) (funcao_chave : Q -> exc Q)
           (st : Z * Z) (i : nat) : Z * Z :=
  let '(acertos_, total) := st in
  match nth_error dados (i - 1), nth_error dados i with
  | Some candle_anterior, Some candle_atual =>
      match testar_par funcao_chave candle_anterior candle_atual with
      | Ret true => ((acertos_ + 1)%Z, (total + 1)%Z)
      | Ret false => (acertos_, (total + 1)%Z)
      | Raise _ => st
      end
  | _, _ => st
  end.

Definition _testar_chave_fase1 (dados : list Candle)
           (funcao_chave : Q -> exc Q) : Q :=
  if (length dados <? 5)%nat then 0
  else
    let '(acertos_, total) :=
      fold_left (testar_passo dados funcao_chave)
                (seq 1 (length dados - 1)) (0%Z, 0%Z) in
    if (0 <? total)%Z then inject_Z acertos_ / inject_Z total else 0.

(** The candidate keys of [descobrir_chave_fase1].  Three of them read
    [str(x)] of the float, whose text is Python's and is a parameter
    here. *)
Section Chaves.
Variable str_float : Q -> string.

Definition sum_last_3 (x : Q) : exc Q :=
  ds <- mapM int_of_char (last_n 3 (remove_dots (chars (str_float x)))) ;;
  Ret (inject_Z (zsum ds mod 2)).

Definition first_digit_parity (x : Q) : exc Q :=
  match remove_dots (chars (str_float x)) with
  | [] => Raise "string index out of range"
  | c :: _ => d <- int_of_char c ;; Ret (inject_Z (d mod 2))
  end.

Definition decimal_pattern (x : Q) : exc Q :=
  ds <- mapM int_of_char (after_last_dot (chars (str_float x))) ;;
  Ret (inject_Z (zsum ds mod 10) / 10).

(** [int(str(int(x))[-1]) % 2]: the last decimal digit of the integer
    part, whatever its sign. *)
Definition last_integer_digit (x : Q) : exc Q :=
  Ret (inject_Z ((Z.abs (Py.int x) mod 10) mod 2)).

Definition funcoes_chave : list (string * (Q -> exc Q)) :=
  [ ("sum_last_3"%string, sum_last_3);
    ("1st_digit_parity"%string, first_digit_parity);
    ("decimal_pattern"%string, decimal_pattern);
    ("last_integer_digit"%string, last_integer_digit) ].

(** Body of [for nome_chave, funcao in funcoes_chave.items()], on
    [(melhor_chave, melhor_score)]. *)
Definition descobrir_passo (dados : list Candle) (st : string * Q)
           (kf : string * (Q -> exc Q)) : string * Q :=
  let '(melhor_chave, melhor_score) := st in
  let score := _testar_chave_fase1 dados (snd kf) in
  if Qgtb score melhor_score then (fst kf, score) else st.

Definition descobrir_chave_fase1 (dados : list Candle) (self : engine)
  : string * engine :=
  if (length dados <? 10)%nat then ("sum_last_3"%string, self)
  else
    let '(melhor_chave, _) :=
      fold_left (descobrir_passo dados) funcoes_chave ("sum_last_3"%string, 0) in
    (melhor_chave, set_chave self (Some melhor_chave)).
End Chaves.

(** [algoritmo_fibonacci_amplitude].  The handler returns [abertura] as
    it is bound when the exception is raised: the argument itself if its
    own conversion failed, its float otherwise. *)
Definition algoritmo_fibonacci_amplitude (abertura_ maxima_ minima_ : pyval) : pyval :=
  match Py.float abertura_ with
  | Raise _ => abertura_
  | Ret a =>
      match (mx <- Py.float maxima_ ;; mn <- Py.float minima_ ;; Ret (mx, mn)) with
      | Raise _ => Numeric a
      | Ret (mx, mn) =>
          let meio := (mx + mn) / 2 in
          if Qltb a meio then Numeric (a + 0.618 * (mx - a))
          else Numeric (a - 0.618 * (a - mn))
      end
  end.

Definition funcoes_predicao (chave : string) : option (Q -> Q -> Q -> Q) :=
  if String.eqb chave "sum_last_3" then Some (fun a mx mn => mn + (mx - mn) * 0.6)
  else if String.eqb chave "1st_digit_parity" then Some (fun a mx mn => (a + mx + mn) / 3)
  else if String.eqb chave "decimal_pattern" then Some (fun a mx mn => mn + (mx - mn) * 0.382)
  else if String.eqb chave "last_integer_digit" then Some (fun a mx mn => a + (mx - a) * 0.5)
  else None.

(** [predizer_fase1]; [Raise] is the handler's own [float(abertura)]
    failing. *)
Definition predizer_fase1 (abertura_ maxima_ minima_ : pyval)
           (chave_ativa : option string) : exc Q :=
  let corpo :=
    a <- Py.float abertura_ ;;
    mx <- Py.float maxima_ ;;
    mn <- Py.float minima_ ;;
    match match chave_ativa with Some k => funcoes_predicao k | None => None end with
    | Some f => Ret (f a mx mn)
    | None => Ret ((a + mx + mn) / 3)
    end in
  match corpo with
  | Ret r => Ret r
  | Raise _ => Py.float abertura_
  end.

(** The dict [alimentar_dados] returns. *)
Record Alimentacao : Type := mkAlimentacao {
  sucesso : bool;
  total_candles : nat;
  fase_alimentada : Z;
  estrategia : string;
  chave_fase1 : option string
}.

Definition alimentar_dados (str_float : Q -> string) (dados : list Candle)
           (self : engine) : Alimentacao * engine :=
  let '(fase, self1) := detectar_fase dados self in
  if (fase =? 1)%Z then
    let '(chave, self2) := descobrir_chave_fase1 str_float dados self1 in
    ({| sucesso := true;
        total_candles := length dados;
        fase_alimentada := fase;
        estrategia := ("Chave: " ++ chave)%string;
        chave_fase1 := chave_ativa_fase1 self2 |}, self2)
  else
    ({| sucesso := true;
        total_candles := length dados;
        fase_alimentada := fase;
        estrategia := "Fibonacci da Amplitude";
        chave_fase1 := None |}, self1).

(** What [fazer_predicao] returns: the prediction, or the dict of its
    handler. *)
Inductive Resultado : Type :=
| Sucesso (p : Predicao)
| Erro (erro : string) (fechamento : Q) (cor posicao_ : string).

(** [self.fase_detectada or 2] *)
Definition fase_ou_2 (self : engine) : Z :=
  match fase_detectada self with
  | None => 2%Z
  | Some 0%Z => 2%Z
  | Some f => f
  end.

(** [fazer_predicao].  [agora] is what [datetime.now().isoformat()]
    reads at the call.  The outer [Raise] is the handler's own
    [float(abertura)] failing. *)
Definition fazer_predicao (agora : string) (abertura_ maxima_ minima_ : pyval)
           (self : engine) : exc Resultado * engine :=
  let fase := fase_ou_2 self in
  let corpo : exc Predicao :=
    abertura_float <- Py.float abertura_ ;;
    maxima_float <- Py.float maxima_ ;;
    minima_float <- Py.float minima_ ;;
    pa <- (if (fase =? 1)%Z then
             r <- predizer_fase1 (Numeric abertura_float) (Numeric maxima_float)
                    (Numeric minima_float) (chave_ativa_fase1 self) ;;
             Ret (r, ("Fase 1 - " ++ str_opt (chave_ativa_fase1 self))%string)
           else
             match algoritmo_fibonacci_amplitude (Numeric abertura_float)
                     (Numeric maxima_float) (Numeric minima_float) with
             | Numeric r => Ret (r, "Fibonacci da Amplitude"%string)
             | Malformed _ => Raise "'>' not supported between instances"
             end) ;;
    let '(fechamento_pred, algoritmo_usado) := pa in
    let cor_pred := if Qgtb fechamento_pred abertura_float
                    then "Verde"%string else "Vermelho"%string in
    let posicao_ := if String.eqb cor_pred "Verde"
                    then "CALL"%string else "PUT"%string in
    Ret {| fechamento_predito := Py.round fechamento_pred 4;
           cor_predita := cor_pred;
           posicao := posicao_;
           fase_usada := fase;
           algoritmo := algoritmo_usado;
           timestamp := agora;
           abertura_usada := abertura_float;
           maxima_usada := maxima_float;
           minima_usada := minima_float |} in
  match corpo with
  | Ret predicao => (Ret (Sucesso predicao), append_historico self predicao)
  | Raise e => (a <- Py.float abertura_ ;; Ret (Erro e a "Erro" "NENHUMA"), self)
  end.

Record Gatilho : Type := mkGatilho {
  gatilho : Q;
  predicao_gatilho : Q;
  direcao : string;
  cor : string;
  offset : Z
}.

Definition calcular_gatilho_entrada (predicao : Predicao) (pontos_offset : Z) : Gatilho :=
  let verde := String.eqb (cor_predita predicao) "Verde" in
  let g := if verde then fechamento_predito predicao - inject_Z pontos_offset
           else fechamento_predito predicao + inject_Z pontos_offset in
  {| gatilho := Py.round g 4;
     predicao_gatilho := fechamento_predito predicao;
     direcao := if verde then "CALL" else "PUT";
     cor := cor_predita predicao;
     offset := pontos_offset |}.

(** The dict [confirmar_resultado] returns on success. *)
Record Confirmacao : Type := mkConfirmacao {
  fechamento_real_conf : Q;
  fechamento_predito_conf : Q;
  erro_absoluto : Q;
  erro_percentual : Q;
  cor_real : string;
  cor_predita_conf : string;
  acerto_cor : bool;
  assertividade_atual : Q
}.

Inductive ResultadoConfirmacao : Type :=
| Confirmado (c : Confirmacao)
| ErroConfirmacao (erro : string).

Definition confirmar_resultado (fechamento_real : pyval) (self : engine)
  : ResultadoConfirmacao * engine :=
  match last_item (historico_predicoes self) with
  | None => (ErroConfirmacao "Nenhuma predição para confirmar", self)
  | Some ultima_predicao =>
      let fechamento_pred := fechamento_predito ultima_predicao in
      let abertura_usada_ := abertura_usada ultima_predicao in
      match Py.float fechamento_real with
      | Raise e => (ErroConfirmacao e, self)
      | Ret fechamento_real_float =>
          let erro_abs := Qabs (fechamento_real_float - fechamento_pred) in
          let erro_perc :=
            if Qeq_bool fechamento_real_float 0 then 0
            else (erro_abs / Qabs fechamento_real_float) * 100 in
          let cor_real_ := if Qgtb fechamento_real_float abertura_usada_
                           then "Verde"%string else "Vermelho"%string in
          let cor_pred := cor_predita ultima_predicao in
          let acerto := String.eqb cor_real_ cor_pred in
          let total := (total_predicoes (estatisticas self) + 1)%Z in
          let acertos_ := if acerto then (acertos (estatisticas self) + 1)%Z
                          else acertos (estatisticas self) in
          if (total =? 0)%Z then
            (ErroConfirmacao "division by zero",
             set_estatisticas self
               {| total_predicoes := total; acertos := acertos_;
                  assertividade := assertividade (estatisticas self) |})
          else
            let assertividade_ := (inject_Z acertos_ / inject_Z total) * 100 in
            (Confirmado
               {| fechamento_real_conf := fechamento_real_float;
                  fechamento_predito_conf := fechamento_pred;
                  erro_absoluto := Py.round erro_abs 4;
                  erro_percentual := Py.round erro_perc 6;
                  cor_real := cor_real_;
                  cor_predita_conf := cor_pred;
                  acerto_cor := acerto;
                  assertividade_atual := Py.round assertividade_ 2 |},
             set_estatisticas self
               {| total_predicoes := total; acertos := acertos_;
                  assertividade := assertividade_ |})
      end
  end.

(** The dict [obter_estatisticas] returns. *)
Record EstatisticasAtuais : Type := mkEstatisticasAtuais {
  est_fase_detectada : option Z;
  est_chave_fase1 : option string;
  est_total_predicoes : Z;
  est_acertos : Z;
  est_assertividade : Q;
  total_historico : nat
}.

Definition obter_estatisticas (self : engine) : EstatisticasAtuais :=
  {| est_fase_detectada := fase_detectada self;
     est_chave_fase1 := chave_ativa_fase1 self;
     est_total_predicoes := total_predicoes (estatisticas self);
     est_acertos := acertos (estatisticas self);
     est_assertividade := Py.round (assertividade (estatisticas self)) 2;
     total_historico := length (historico_predicoes self) |}.

(** Calls made on one instance after its phase was set: a prediction
    (with the clock reading of the call) or a confirmation. *)
Inductive operacao : Type :=
| OpPredicao (agora : string) (abertura_ maxima_ minima_ : pyval)
| OpConfirmacao (fechamento_real : pyval).

Definition executar (self : engine) (op : operacao) : engine :=
  match op with
  | OpPredicao agora a mx mn => snd (fazer_predicao agora a mx mn self)
  | OpConfirmacao r => snd (confirmar_resultado r self)
  end.

Definition executar_todas (ops : list operacao) (self : engine) : engine :=
  fold_left executar ops self.

(** A result of [fazer_predicao] without its [timestamp] entry. *)
Definition sem_timestamp (r : exc Resultado) : exc Resultado :=
  match r with
  | Ret (Sucesso p) =>
      Ret (Sucesso {| fechamento_predito := fechamento_predito p;
                      cor_predita := cor_predita p;
                      posicao := posicao p;
                      fase_usada := fase_usada p;
                      algoritmo := algoritmo p;
                      timestamp := "";
                      abertura_usada := abertura_usada p;
                      maxima_usada := maxima_usada p;
                      minima_usada := minima_usada p |})
  | _ => r
  end.

End PredictionEngine.

(** * [prediction_engine.py] in binary64: phase detection and the Phase-2 formula

    [detectar_fase] and [algoritmo_fibonacci_amplitude] decide by comparing
    a rounded sum with a bound, so what they answer near the bound is a
    matter of binary64 arithmetic.  Here they are embedded over the
    kernel's binary64 numbers, with the values of the dicts as the code
    meets them: any object, which [float()] converts or rejects. *)
Module Binary64.

Local Open Scope float_scope.

(** An object on which the code calls [float(...)]: something the
    conversion accepts (a number, or a string that spells one), with the
    double it returns, or something it rejects ([None], another string, a
    list), with the exception's message. *)
Inductive pyval : Type :=
| Numeric (x : PrimFloat.float)
| Malformed (msg : string).

Definition float (v : pyval) : exc PrimFloat.float :=
  match v with
  | Numeric x => Ret x
  | Malformed msg => Raise msg
  end.

(** A historical candle: a dict whose keys may be absent and whose values
    are any objects. *)
Record Candle : Type := mkCandle {
  abertura : option pyval;
  maxima : option pyval;
  minima : option pyval;
  fechamento : option pyval
}.

(** [float(candle.get('abertura', 0))] *)
Definition float_abertura (candle : Candle) : exc PrimFloat.float :=
  match abertura candle with
  | Some v => float v
  | None => Ret 0
  end.

(** [detectar_fase]: the phase or the exception of the first open that
    does not convert, and the instance afterwards.  [np_mean] is numpy's
    mean of a non-empty list of doubles. *)
Definition detectar_fase (np_mean : list PrimFloat.float -> PrimFloat.float)
           (dados : list Candle) (self : PredictionEngine.engine)
  : exc Z * PredictionEngine.engine :=
  match dados with
  | [] => (Ret 1%Z, self)
  | _ :: _ =>
      match mapM float_abertura dados with
      | Raise e => (Raise e, self)
      | Ret aberturas =>
          let media_abertura := np_mean aberturas in
          let fase := if 1000 <? media_abertura then 2%Z else 1%Z in
          (Ret fase, PredictionEngine.set_fase self (Some fase))
      end
  end.

(** [algoritmo_fibonacci_amplitude].  The handler returns [abertura] as
    it is bound when the exception is raised: the argument itself if its
    own conversion failed, its float otherwise. *)
Definition algoritmo_fibonacci_amplitude (abertura_ maxima_ minima_ : pyval) : pyval :=
  match float abertura_ with
  | Raise _ => abertura_
  | Ret a =>
      match (mx <- float maxima_ ;; mn <- float minima_ ;; Ret (mx, mn)) with
      | Raise _ => Numeric a
      | Ret (mx, mn) =>
          let meio := (mx + mn) / 2 in
          if a <? meio then Numeric (a + 0.618 * (mx - a))
          else Numeric (a - 0.618 * (a - mn))
      end
  end.

End Binary64.

(** * [amplitude_predictor.py]: class [AmplitudePredictor] *)
Module AmplitudePredictor.

(** The instance attributes.  [std_amplitude] (a square root that no
    method reads) is not carried.  [amplitude_percentiles] is the dict
    in insertion order. *)
Record predictor : Type := mkPredictor {
  historical_candles : list Candle;
  mean_amplitude : Q;
  amplitude_percentiles : list (Z * Q)
}.

(** [d[k]] (0 stands for the [KeyError] no caller can reach) and
    [d[k] = v]. *)
Fixpoint dict_get (d : list (Z * Q)) (k : Z) : Q :=
  match d with
  | [] => 0
  | (k', v) :: d' => if (k' =? k)%Z then v else dict_get d' k
  end.

Fixpoint dict_set (d : list (Z * Q)) (k : Z) (v : Q) : list (Z * Q) :=
  match d with
  | [] => [(k, v)]
  | (k', v') :: d' => if (k' =? k)%Z then (k, v) :: d' else (k', v') :: dict_set d' k v
  end.

Definition keys (d : list (Z * Q)) : list Z := map fst d.

(** [sorted(data)] *)
Fixpoint insert_sorted (x : Q) (l : list Q) : list Q :=
  match l with
  | [] => [x]
  | y :: l' => if Qltb x y then x :: l else y :: insert_sorted x l'
  end.

Definition sorted (data : list Q) : list Q :=
  fold_right insert_sorted [] data.

(** [sorted(keys, reverse=True)] *)
Fixpoint insert_desc (x : Z) (l : list Z) : list Z :=
  match l with
  | [] => [x]
  | y :: l' => if (y <? x)%Z then x :: l else y :: insert_desc x l'
  end.

Definition sorted_reverse (ks : list Z) : list Z :=
  fold_right insert_desc [] ks.

(** [_percentile] *)
Definition _percentile (data : list Q) (percentile : Z) : Q :=
  let sorted_data := sorted data in
  let index := (inject_Z percentile / 100) * inject_Z (Z.of_nat (length sorted_data) - 1) in
  let lower := Qfloor index in
  let upper := Qceiling index in
  if (lower =? upper)%Z then nth (Z.to_nat (Py.int index)) sorted_data 0
  else nth (Z.to_nat lower) sorted_data 0 * (inject_Z upper - index)
       + nth (Z.to_nat upper) sorted_data 0 * (index - inject_Z lower).

(** The loop of [_calculate_statistics] that collects the positive
    amplitudes; a candle without [maxima] or [minima] raises. *)
Fixpoint collect_amplitudes (cs : list Candle) : exc (list Q) :=
  match cs with
  | [] => Ret []
  | c :: cs' =>
      mx <- item "maxima" (maxima c) ;;
      mn <- item "minima" (minima c) ;;
      rest <- collect_amplitudes cs' ;;
      let amp := mx - mn in
      Ret (if Qgtb amp 0 then amp :: rest else rest)
  end.

Definition percentiles : list Z := [10; 25; 50; 75; 90; 95]%Z.

Definition _calculate_statistics (self : predictor) : exc predictor :=
  match historical_candles self with
  | [] => Ret self
  | _ :: _ =>
      amplitudes <- collect_amplitudes (historical_candles self) ;;
      match amplitudes with
      | [] => Ret self
      | _ :: _ =>
          Ret {| historical_candles := historical_candles self;
                 mean_amplitude := Py.mean amplitudes;
                 amplitude_percentiles :=
                   fold_left (fun d p => dict_set d p (_percentile amplitudes p))
                             percentiles (amplitude_percentiles self) |}
      end
  end.

(** [__init__] *)
Definition init (historical_candles_ : list Candle) : exc predictor :=
  _calculate_statistics
    {| historical_candles := historical_candles_;
       mean_amplitude := 0;
       amplitude_percentiles := [] |}.

Definition _calculate_expansion_probability
           (current_amplitude predicted_amplitude elapsed_minutes current_price
            current_high current_low predicted_close : Q)
           (predicted_direction : string) : Q :=
  let growth_potential :=
    if Qgtb current_amplitude 0
    then (predicted_amplitude - current_amplitude) / current_amplitude else 0 in
  let growth_factor := Py.min 1.0 (Py.max 0 growth_potential) in
  let price_position :=
    if Qgtb current_amplitude 0
    then (current_price - current_low) / current_amplitude else 0.5 in
  let position_factor := 1 - Qabs (price_position - 0.5) * 2 in
  let time_ratio := elapsed_minutes / 15.0 in
  let time_factor :=
    if Qgtb time_ratio 0.83 then 0.85
    else if Qgtb time_ratio 0.67 then 0.65
    else 0.45 in
  let prediction_factor :=
    if Qgtb predicted_close current_high || Qltb predicted_close current_low
    then 0.9 else 0.5 in
  let expansion_prob :=
    growth_factor * 0.25 + position_factor * 0.20
    + time_factor * 0.30 + prediction_factor * 0.25 in
  Py.max 0 (Py.min 1 expansion_prob).

(** The scan of [_get_percentile_position] over the sorted keys. *)
Fixpoint first_reached (d : list (Z * Q)) (amplitude : Q) (ks : list Z) : Z :=
  match ks with
  | [] => 10%Z
  | p :: ks' => if Qgeb amplitude (dict_get d p) then p else first_reached d amplitude ks'
  end.

Definition _get_percentile_position (self : predictor) (amplitude : Q) : Z :=
  match amplitude_percentiles self with
  | [] => 50%Z
  | _ :: _ =>
      first_reached (amplitude_percentiles self) amplitude
                    (sorted_reverse (keys (amplitude_percentiles self)))
  end.

(** The dict [_analyze_movement_expectation] returns. *)
Record Movement : Type := mkMovement {
  expectation : string;
  confidence : Q;
  will_pullback : bool;
  will_gain_strength : bool;
  will_consolidate : bool;
  will_reverse_color : bool
}.

Definition _analyze_movement_expectation
           (current_price current_high current_low predicted_close : Q)
           (predicted_direction : string)
           (price_position predicted_price_position expansion_probability : Q)
  : Movement :=
  let price_to_prediction_distance := Qabs (predicted_close - current_price) in
  let current_amplitude := current_high - current_low in
  let distance_ratio :=
    if Qgtb current_amplitude 0
    then price_to_prediction_distance / current_amplitude else 0 in
  let will_pullback_ :=
    if Qgtb price_position 0.75 && Qltb predicted_price_position 0.6 then true
    else if Qltb price_position 0.25 && Qgtb predicted_price_position 0.4 then true
    else false in
  let will_gain_strength_ :=
    Qgtb expansion_probability 0.7 && Qgtb distance_ratio 0.3 in
  let will_consolidate_ :=
    Qltb expansion_probability 0.4 && Qltb distance_ratio 0.2 in
  let current_color :=
    if Qgtb current_price ((current_high + current_low) / 2)
    then "green"%string else "red"%string in
  let predicted_color :=
    if String.eqb predicted_direction "compra" then "green"%string else "red"%string in
  let will_reverse_color_ :=
    negb (String.eqb current_color predicted_color) && Qgtb expansion_probability 0.6 in
  let '(expectation_, confidence_) :=
    if will_pullback_ then ("PULLBACK"%string, 0.75)
    else if will_gain_strength_ then ("GAIN_STRENGTH"%string, 0.80)
    else if will_consolidate_ then ("CONSOLIDATE"%string, 0.70)
    else if will_reverse_color_ then ("REVERSE_COLOR"%string, 0.65)
    else ("NEUTRAL"%string, 0.50) in
  {| expectation := expectation_;
     confidence := confidence_;
     will_pullback := will_pullback_;
     will_gain_strength := will_gain_strength_;
     will_consolidate := will_consolidate_;
     will_reverse_color := will_reverse_color_ |}.

(** The dict [_determine_entry_strategy] returns. *)
Record Entry : Type := mkEntry {
  strategy : string;
  reason : string;
  confidence_modifier : Z;
  stake_type : string;
  risk_level : string
}.

Definition _determine_entry_strategy
           (predicted_direction : string) (movement_analysis : Movement)
           (expansion_probability price_position elapsed_minutes : Q) : Entry :=
  let expectation_ := expectation movement_analysis in
  let movement_confidence := confidence movement_analysis in
  if String.eqb expectation_ "GAIN_STRENGTH" && Qgtb expansion_probability 0.75
     && Qgtb movement_confidence 0.75 && Qgtb elapsed_minutes 12.5
  then {| strategy := "HIGH_CONFIDENCE";
          reason := "Movimento forte esperado com alta confiança nos últimos minutos";
          confidence_modifier := 25;
          stake_type := "HIGH";
          risk_level := "MEDIUM" |}
  else if String.eqb expectation_ "PULLBACK" || String.eqb expectation_ "REVERSE_COLOR"
  then {| strategy := "DEFENSE";
          reason := "Recuo ou reversão esperada - entrada defensiva";
          confidence_modifier := -20;
          stake_type := "LOW";
          risk_level := "HIGH" |}
  else if String.eqb expectation_ "CONSOLIDATE"
  then {| strategy := "WAIT";
          reason := "Candle deve consolidar - evitar entrada";
          confidence_modifier := -30;
          stake_type := "NONE";
          risk_level := "HIGH" |}
  else if Qgtb expansion_probability 0.5 && Qltb expansion_probability 0.75
  then {| strategy := "HEDGE";
          reason := "Probabilidade moderada - usar hedge";
          confidence_modifier := 0;
          stake_type := "NORMAL";
          risk_level := "MEDIUM" |}
  else {| strategy := "NEUTRAL";
          reason := "Sem sinal claro - seguir predição padrão";
          confidence_modifier := 0;
          stake_type := "NORMAL";
          risk_level := "MEDIUM" |}.

(** The dict [_generate_strategic_recommendation] returns. *)
Record Recommendation : Type := mkRecommendation {
  movement_expectation : string;
  movement_confidence : Q;
  rec_will_pullback : bool;
  rec_will_gain_strength : bool;
  rec_will_consolidate : bool;
  rec_will_reverse_color : bool;
  entry_strategy : string;
  entry_reason : string;
  rec_confidence_modifier : Z;
  suggested_stake_type : string;
  rec_risk_level : string
}.

Definition _generate_strategic_recommendation
           (current_price current_high current_low predicted_close : Q)
           (predicted_direction : string)
           (predicted_amplitude current_amplitude expansion_probability
            elapsed_minutes price_position predicted_price_position : Q)
  : Recommendation :=
  let movement_analysis :=
    _analyze_movement_expectation current_price current_high current_low
      predicted_close predicted_direction price_position
      predicted_price_position expansion_probability in
  let entry :=
    _determine_entry_strategy predicted_direction movement_analysis
      expansion_probability price_position elapsed_minutes in
  {| movement_expectation := expectation movement_analysis;
     movement_confidence := confidence movement_analysis;
     rec_will_pullback := will_pullback movement_analysis;
     rec_will_gain_strength := will_gain_strength movement_analysis;
     rec_will_consolidate := will_consolidate movement_analysis;
     rec_will_reverse_color := will_reverse_color movement_analysis;
     entry_strategy := strategy entry;
     entry_reason := reason entry;
     rec_confidence_modifier := confidence_modifier entry;
     suggested_stake_type := stake_type entry;
     rec_risk_level := risk_level entry |}.

(** The dict [predict_final_amplitude] returns. *)
Record Prediction : Type := mkPrediction {
  predicted_amplitude_out : Q;
  current_amplitude_out : Q;
  confidence_out : Q;
  expansion_probability_out : Q;
  will_expand : bool;
  growth_potential_out : Q;
  price_position_out : Q;
  price_position_label : string;
  predicted_price_position_out : Q;
  percentile_position : Z;
  recommendation : Recommendation
}.

Definition predict_final_amplitude (self : predictor)
           (current_high current_low current_price elapsed_minutes
            predicted_close : Q) (predicted_direction : string) : Prediction :=
  let current_amplitude :=
    let d := current_high - current_low in
    if Qeq_bool d 0 then 0.01 else d in
  let time_ratio := elapsed_minutes / 15.0 in
  let growth_factor :=
    if Qltb time_ratio 0.33 then 1.8
    else if Qltb time_ratio 0.67 then 1.4
    else if Qltb time_ratio 0.83 then 1.2
    else 1.15 in
  let predicted_amplitude_linear := current_amplitude * growth_factor in
  let predicted_amplitude_mean :=
    if Qgtb (mean_amplitude self) 0 then
      let amplitude_ratio := current_amplitude / mean_amplitude self in
      if Qgtb amplitude_ratio 1.5 then current_amplitude * 1.05
      else if Qltb amplitude_ratio 0.5 then mean_amplitude self * 0.8
      else mean_amplitude self
    else predicted_amplitude_linear in
  let predicted_amplitude_from_close :=
    if Qgtb predicted_close current_high then (predicted_close - current_low) * 1.1
    else if Qltb predicted_close current_low then (current_high - predicted_close) * 1.1
    else current_amplitude * 1.05 in
  let predicted_amplitude :=
    0.3 * predicted_amplitude_linear + 0.3 * predicted_amplitude_mean
    + 0.4 * predicted_amplitude_from_close in
  let confidence_ := Py.min 95 (40 + time_ratio * 60) in
  let expansion_probability :=
    _calculate_expansion_probability current_amplitude predicted_amplitude
      elapsed_minutes current_price current_high current_low predicted_close
      predicted_direction in
  let price_position :=
    if Qgtb current_amplitude 0
    then (current_price - current_low) / current_amplitude else 0.5 in
  let label :=
    if Qgtb price_position 0.7 then "TOP"%string
    else if Qltb price_position 0.3 then "BOTTOM"%string
    else "MIDDLE"%string in
  let predicted_price_position :=
    if Qgtb current_amplitude 0
    then (predicted_close - current_low) / current_amplitude else 0.5 in
  let recommendation_ :=
    _generate_strategic_recommendation current_price current_high current_low
      predicted_close predicted_direction predicted_amplitude current_amplitude
      expansion_probability elapsed_minutes price_position
      predicted_price_position in
  {| predicted_amplitude_out := Py.round predicted_amplitude 4;
     current_amplitude_out := Py.round current_amplitude 4;
     confidence_out := Py.round confidence_ 2;
     expansion_probability_out := Py.round expansion_probability 4;
     will_expand := Qgtb expansion_probability 0.6;
     growth_potential_out :=
       if Qgtb current_amplitude 0
       then Py.round ((predicted_amplitude - current_amplitude) / current_amplitude) 4
       else 0;
     price_position_out := Py.round price_position 4;
     price_position_label := label;
     predicted_price_position_out := Py.round predicted_price_position 4;
     percentile_position := _get_percentile_position self predicted_amplitude;
     recommendation := recommendation_ |}.

End AmplitudePredictor.

(** * [engine_server.py]: the REST front of the engine *)
Module EngineServer.

(** The module globals [engine] and [engine_initialized]. *)
Record servidor : Type := mkServidor {
  engine : PredictionEngine.engine;
  engine_initialized : bool
}.

Definition inicial : servidor :=
  {| engine := PredictionEngine.init; engine_initialized := false |}.

(** [partial_current]: a dict whose keys may be absent. *)
Record Parcial : Type := mkParcial {
  p_abertura : option pyval;
  p_minima_parcial : option pyval;
  p_maxima_parcial : option pyval
}.

(** The JSON body of a request: a dict whose required keys may be
    absent. *)
Record Pedido : Type := mkPedido {
  symbol : option string;
  tf : option string;
  history : option (list Candle);
  partial_current : option Parcial
}.

(** The JSON body and HTTP status of a response. *)
Inductive Resposta : Type :=
| Resposta200 (predicted_close : Q) (direction phase strategy_ : string) (confidence_ : Q)
| Resposta400 (error : string)
| Resposta500 (error message : string).

(** [float(partial[key])] *)
Definition float_item (key : string) (v : option pyval) : exc Q :=
  match v with
  | Some x => Py.float x
  | None => Raise (repr key)
  end.

(** [predict], once [request.json] has returned.  [data] is the value
    it returned, [None] when that is falsy; [agora] is the clock reading
    [fazer_predicao] takes. *)
Definition predict (str_float : Q -> string) (agora : string)
           (data : option Pedido) (srv : servidor) : Resposta * servidor :=
  match data with
  | None => (Resposta400 "No data provided", srv)
  | Some d =>
      match symbol d, tf d, history d, partial_current d with
      | None, _, _, _ => (Resposta400 "Missing required field: symbol", srv)
      | Some _, None, _, _ => (Resposta400 "Missing required field: tf", srv)
      | Some _, Some _, None, _ => (Resposta400 "Missing required field: history", srv)
      | Some _, Some _, Some _, None =>
          (Resposta400 "Missing required field: partial_current", srv)
      | Some _, Some tf_, Some history_, Some partial =>
          if negb (String.eqb tf_ "M15" || String.eqb tf_ "M30")
          then (Resposta400 "Only M15 and M30 timeframes are supported", srv)
          else
            let srv1 :=
              if engine_initialized srv then srv
              else
                let '(result, e) :=
                  PredictionEngine.alimentar_dados str_float history_ (engine srv) in
                {| engine := e;
                   engine_initialized :=
                     if PredictionEngine.sucesso result then true
                     else engine_initialized srv |} in
            match (abertura_ <- float_item "abertura" (p_abertura partial) ;;
                   minima_ <- float_item "minima_parcial" (p_minima_parcial partial) ;;
                   maxima_ <- float_item "maxima_parcial" (p_maxima_parcial partial) ;;
                   Ret (abertura_, minima_, maxima_)) with
            | Raise e => (Resposta500 e "Erro ao processar predição", srv1)
            | Ret (abertura_, minima_, maxima_) =>
                let '(predicao, e) :=
                  PredictionEngine.fazer_predicao agora (Numeric abertura_)
                    (Numeric maxima_) (Numeric minima_) (engine srv1) in
                let srv2 := {| engine := e;
                               engine_initialized := engine_initialized srv1 |} in
                match predicao with
                | Raise msg => (Resposta500 msg "Erro ao processar predição", srv2)
                | Ret (PredictionEngine.Sucesso p) =>
                    (Resposta200 (PredictionEngine.fechamento_predito p)
                       (if String.eqb (PredictionEngine.cor_predita p) "Verde"
                        then "up" else "down")
                       (PredictionEngine.algoritmo p) (PredictionEngine.algoritmo p)
                       0.8485, srv2)
                | Ret (PredictionEngine.Erro _ f c _) =>
                    (Resposta200 f
                       (if String.eqb c "Verde" then "up" else "down")
                       "Fibonacci da Amplitude" "Fibonacci da Amplitude"
                       0.8485, srv2)
                end
            end
      end
  end.

(** [predict], from its first statement.  [request_json] is what reading
    [request.json] does: it returns the parsed body, or raises when the
    request carries no JSON (no body, another content type, text that does
    not parse); the [except] of the view then answers 500. *)
Definition predict_request (str_float : Q -> string) (agora : string)
           (request_json : exc (option Pedido)) (srv : servidor)
  : Resposta * servidor :=
  match request_json with
  | Raise e => (Resposta500 e "Erro ao processar predição", srv)
  | Ret data => predict str_float agora data srv
  end.

(** [reset_engine] *)
Definition reset_engine (srv : servidor) : servidor := inicial.

(** [health_check]: the [initialized] entry of its body. *)
Definition health_check (srv : servidor) : bool := engine_initialized srv.

End EngineServer.

(** * Definitions the statements below are phrased with *)

Module E := PredictionEngine.
Module A := AmplitudePredictor.
Module S := EngineServer.
Module B := Binary64.

(** The rational a finite double stands for. *)
Definition exato (x : PrimFloat.float) : option Q :=
  match Prim2SF x with
  | S754_zero _ => Some 0
  | S754_finite s m e =>
      let v := inject_Z (Z.pos m) * 2 ^ e in
      Some (if s then - v else v)
  | _ => None
  end.

(** A candle whose open, if it has one, is an object [float()] converts;
    and the double [detectar_fase] reads from such a candle. *)
Definition abertura_converte (candle : B.Candle) : bool :=
  match B.abertura candle with
  | Some (B.Malformed _) => false
  | _ => true
  end.

Definition valor_abertura (candle : B.Candle) : PrimFloat.float :=
  match B.abertura candle with
  | Some (B.Numeric x) => x
  | _ => 0%float
  end.

(** A mean that adds from left to right and divides by the count.  On one
    or two doubles it is the double every mean returns, numpy's included:
    there is at most one rounded addition, and it does not depend on the
    order of its operands. *)
Definition media_em_ordem (l : list PrimFloat.float) : PrimFloat.float :=
  (fold_left PrimFloat.add l 0 / fold_left (fun n _ => n + 1) l 0)%float.

(** The open values [detectar_fase] averages. *)
Definition aberturas (dados : list Candle) : list Q :=
  map (fun candle => get_default (abertura candle) 0) dados.

(** The arithmetic mean, written as the sum of the sample over its size. *)
Definition media_aritmetica (l : list Q) : Q :=
  fold_right Qplus 0 l / inject_Z (Z.of_nat (length l)).

(** The consecutive (prior, current) pairs of a dataset. *)
Definition pares_consecutivos (dados : list Candle) : list (Candle * Candle) :=
  combine dados (tl dados).

(** A pair as the backtest is described: usable when the three values it
    reads are present and the key function returns; it is a hit when
    "predicted green" (key value above 0.5) agrees with "realised green"
    (close above open of the current candle). *)
Definition par_descrito (funcao_chave : Q -> exc Q) (par : Candle * Candle)
  : option bool :=
  match abertura (fst par), fechamento (snd par), abertura (snd par) with
  | Some o, Some c, Some o' =>
      match funcao_chave o with
      | Ret v => Some (Bool.eqb (Qgtb v 0.5) (Qgtb c o'))
      | Raise _ => None
      end
  | _, _, _ => None
  end.

Definition pares_avaliados (funcao_chave : Q -> exc Q) (dados : list Candle) : nat :=
  length (filter (fun par => match par_descrito funcao_chave par with
                             | Some _ => true | None => false end)
                 (pares_consecutivos dados)).

Definition pares_certos (funcao_chave : Q -> exc Q) (dados : list Candle) : nat :=
  length (filter (fun par => match par_descrito funcao_chave par with
                             | Some true => true | _ => false end)
                 (pares_consecutivos dados)).

Definition conta (b : bool) : Z := if b then 1%Z else 0%Z.

(** Clamp to [0, 1]. *)
Definition clamp01 (x : Q) : Q := Py.max 0 (Py.min 1 x).

(** The four factors of the expansion probability, before any clamp. *)
Definition fator_crescimento (current_amplitude predicted_amplitude : Q) : Q :=
  if Qgtb current_amplitude 0
  then (predicted_amplitude - current_amplitude) / current_amplitude else 0.

Definition posicao_preco (current_amplitude current_price current_low : Q) : Q :=
  if Qgtb current_amplitude 0
  then (current_price - current_low) / current_amplitude else 0.5.

Definition fator_posicao (current_amplitude current_price current_low : Q) : Q :=
  1 - 2 * Qabs (posicao_preco current_amplitude current_price current_low - 0.5).

Definition fator_tempo (elapsed_minutes : Q) : Q :=
  if Qgtb (elapsed_minutes / 15.0) 0.83 then 0.85
  else if Qgtb (elapsed_minutes / 15.0) 0.67 then 0.65 else 0.45.

Definition fator_rompimento (current_high current_low predicted_close : Q) : Q :=
  if Qgtb predicted_close current_high || Qltb predicted_close current_low
  then 0.9 else 0.5.

(** The expansion probability as described: every factor clamped to
    [0, 1] before weighting, and the sum clamped. *)
Definition probabilidade_descrita
           (current_amplitude predicted_amplitude elapsed_minutes current_price
            current_high current_low predicted_close : Q) : Q :=
  clamp01
    (0.25 * clamp01 (fator_crescimento current_amplitude predicted_amplitude)
     + 0.20 * clamp01 (fator_posicao current_amplitude current_price current_low)
     + 0.30 * clamp01 (fator_tempo elapsed_minutes)
     + 0.25 * clamp01 (fator_rompimento current_high current_low predicted_close)).

(** The same with the position factor left as it is. *)
Definition probabilidade_sem_clamp_posicao
           (current_amplitude predicted_amplitude elapsed_minutes current_price
            current_high current_low predicted_close : Q) : Q :=
  clamp01
    (0.25 * clamp01 (fator_crescimento current_amplitude predicted_amplitude)
     + 0.20 * fator_posicao current_amplitude current_price current_low
     + 0.30 * clamp01 (fator_tempo elapsed_minutes)
     + 0.25 * clamp01 (fator_rompimento current_high current_low predicted_close)).

(** The percentile scan as described: the keys in descending order, the
    first whose stored value is at most the amplitude, 10 if none. *)
Definition varredura_descrita (tabela : list (Z * Q)) (amplitude : Q) : Z :=
  match find (fun p => Qle_bool (A.dict_get tabela p) amplitude)
             [95; 90; 75; 50; 25; 10]%Z with
  | Some p => p
  | None => 10%Z
  end.

(** The score of a candidate key on a dataset. *)
Definition score (dados : list Candle) (kf : string * (Q -> exc Q)) : Q :=
  E._testar_chave_fase1 dados (snd kf).

(** A stored prediction whose colour and position agree. *)
Definition entrada_coerente (p : E.Predicao) : Prop :=
  (E.cor_predita p = "Verde"%string /\ E.posicao p = "CALL"%string)
  \/ (E.cor_predita p = "Vermelho"%string /\ E.posicao p = "PUT"%string).

(** Running statistics that add up. *)
Definition estat_coerente (s : E.Estatisticas) : Prop :=
  (0 <= E.acertos s <= E.total_predicoes s)%Z
  /\ ((0 < E.total_predicoes s)%Z ->
      E.assertividade s
      == inject_Z (E.acertos s) / inject_Z (E.total_predicoes s) * 100)
  /\ 0 <= E.assertividade s <= 100.

(** A prediction call whose three arguments convert, and a confirmation
    call. *)
Definition predicao_valida (op : E.operacao) : bool :=
  match op with
  | E.OpPredicao _ (Numeric _) (Numeric _) (Numeric _) => true
  | _ => false
  end.

Definition e_confirmacao (op : E.operacao) : bool :=
  match op with
  | E.OpConfirmacao _ => true
  | _ => false
  end.

(** A candle that has both bounds, and its amplitude. *)
Definition tem_limites (c : Candle) : Prop :=
  maxima c <> None /\ minima c <> None.

Definition amplitude (c : Candle) : Q :=
  get_default (maxima c) 0 - get_default (minima c) 0.

(** A request body that passes the checks of [predict]: the four required
    keys and a supported timeframe. *)
Definition pedido_valido (d : S.Pedido) : Prop :=
  S.symbol d <> None /\ S.history d <> None /\ S.partial_current d <> None
  /\ (S.tf d = Some "M15"%string \/ S.tf d = Some "M30"%string).

(** A partial candle whose three values are present and convert. *)
Definition parcial_numerico (d : S.Pedido) : Prop :=
  exists a mn mx,
    S.partial_current d
    = Some (S.mkParcial (Some (Numeric a)) (Some (Numeric mn)) (Some (Numeric mx))).

Definition e_400 (r : S.Resposta) : Prop :=
  match r with S.Resposta400 _ => True | _ => False end.

Definition e_200 (r : S.Resposta) : Prop :=
  match r with S.Resposta200 _ _ _ _ _ => True | _ => False end.

(** A run of requests, each with the clock reading of its prediction. *)
Definition servir (str_float : Q -> string)
           (pedidos : list (string * option S.Pedido)) (srv : S.servidor)
  : S.servidor :=
  fold_left (fun sv ap => snd (S.predict str_float (fst ap) (snd ap) sv)) pedidos srv.

(** Sample data: five candles of amplitudes 1 to 5, and five small-scale
    candles that all open at 1.2 and close higher. *)
Definition amostra_amplitudes : list Candle :=
  map (fun a => mkCandle None (Some a) (Some 0) None) [1; 2; 3; 4; 5].

Definition amostra_cinco_verdes : list Candle :=
  repeat (mkCandle (Some 1.2) (Some 1.4) (Some 1.1) (Some 1.3)) 5.

(** * Comparisons and clamps *)

Lemma Qltb_true (x y : Q) : Qltb x y = true <-> x < y.
Proof.
  unfold Qltb. rewrite negb_true_iff. split; intro H.
  - apply Qnot_le_lt. intro Hle. apply Qle_bool_iff in Hle. congruence.
  - destruct (Qle_bool y x) eqn:Hb; [|reflexivity].
    apply Qle_bool_iff in Hb. exfalso. apply (Qlt_not_le _ _ H Hb).
Qed.

Lemma Qltb_false (x y : Q) : Qltb x y = false <-> y <= x.
Proof.
  unfold Qltb. rewrite negb_false_iff. apply Qle_bool_iff.
Qed.

Lemma Qgtb_true (x y : Q) : Qgtb x y = true <-> y < x.
Proof. apply Qltb_true. Qed.

Lemma Qgtb_false (x y : Q) : Qgtb x y = false <-> x <= y.
Proof. apply Qltb_false. Qed.

Lemma Qltb_compat (x x' y y' : Q) : x == x' -> y == y' -> Qltb x y = Qltb x' y'.
Proof.
  intros Hx Hy. destruct (Qltb x' y') eqn:Hb.
  - apply Qltb_true. rewrite Hx, Hy. now apply Qltb_true.
  - apply Qltb_false. rewrite Hx, Hy. now apply Qltb_false.
Qed.

(** Turn the boolean comparisons in the context into their order facts. *)
Ltac order_facts :=
  repeat match goal with
    | H : Qltb _ _ = true |- _ => apply Qltb_true in H
    | H : Qltb _ _ = false |- _ => apply Qltb_false in H
    | H : Qgtb _ _ = true |- _ => apply Qgtb_true in H
    | H : Qgtb _ _ = false |- _ => apply Qgtb_false in H
    end.

Ltac absurd_order :=
  match goal with
  | H1 : ?x < ?y, H2 : ?y <= ?x |- _ => exfalso; exact (Qlt_not_le _ _ H1 H2)
  end.

Lemma clamp01_id (x : Q) : 0 <= x -> x <= 1 -> clamp01 x == x.
Proof.
  intros H0 H1. unfold clamp01, Py.max, Py.min.
  destruct (Qltb x 1) eqn:Hx.
  - destruct (Qltb 0 x) eqn:H0x; [reflexivity|].
    apply Qltb_false in H0x. now apply Qle_antisym.
  - apply Qltb_false in Hx.
    assert (Hx1 : x == 1) by now apply Qle_antisym.
    destruct (Qltb 0 1) eqn:H01; [now symmetry|discriminate].
Qed.

Lemma clamp01_compat (x y : Q) : x == y -> clamp01 x == clamp01 y.
Proof.
  intro H. unfold clamp01, Py.max, Py.min.
  rewrite (Qltb_compat x y 1 1 H (Qeq_refl 1)).
  destruct (Qltb y 1).
  - rewrite (Qltb_compat 0 0 x y (Qeq_refl 0) H). now destruct (Qltb 0 y).
  - reflexivity.
Qed.

(** * The prediction engine *)

Lemma fold_left_Qplus (l : list Q) (a : Q) :
  fold_left Qplus l a == a + fold_right Qplus 0 l.
Proof.
  revert a. induction l as [|x l IH]; intro a; simpl.
  - ring.
  - rewrite IH. ring.
Qed.

Lemma mean_media_aritmetica (l : list Q) : Py.mean l == media_aritmetica l.
Proof.
  unfold Py.mean, media_aritmetica, Py.sum.
  rewrite fold_left_Qplus. apply Qmult_comp; [ring | reflexivity].
Qed.

Lemma fazer_predicao_estado agora a mx mn self :
  snd (E.fazer_predicao agora a mx mn self) = self
  \/ exists p, snd (E.fazer_predicao agora a mx mn self) = E.append_historico self p.
Proof.
  unfold E.fazer_predicao.
  match goal with |- context [match ?c with Ret _ => _ | Raise _ => _ end] =>
    destruct c as [p|e] end; simpl; eauto.
Qed.

Lemma confirmar_resultado_estado r self :
  snd (E.confirmar_resultado r self) = self
  \/ exists s, snd (E.confirmar_resultado r self) = E.set_estatisticas self s.
Proof.
  unfold E.confirmar_resultado.
  destruct (last_item (E.historico_predicoes self)); simpl; auto.
  destruct (Py.float r); simpl; auto.
  match goal with |- context [if ?b then _ else _] => destruct b end; simpl; eauto.
Qed.

(** No prediction and no confirmation touches the phase or the key. *)
Lemma executar_fase self op :
  E.fase_detectada (E.executar self op) = E.fase_detectada self
  /\ E.chave_ativa_fase1 (E.executar self op) = E.chave_ativa_fase1 self.
Proof.
  destruct op as [agora a mx mn|r]; simpl.
  - destruct (fazer_predicao_estado agora a mx mn self) as [H|[p H]];
      rewrite H; auto.
  - destruct (confirmar_resultado_estado r self) as [H|[s H]];
      rewrite H; auto.
Qed.

Lemma executar_todas_fase ops : forall self,
  E.fase_detectada (E.executar_todas ops self) = E.fase_detectada self
  /\ E.chave_ativa_fase1 (E.executar_todas ops self) = E.chave_ativa_fase1 self.
Proof.
  unfold E.executar_todas.
  induction ops as [|op ops IH]; intro self; simpl; [auto|].
  destruct (IH (E.executar self op)) as [Hf Hk].
  destruct (executar_fase self op) as [Hf' Hk'].
  split; congruence.
Qed.

(** The result of a prediction, its timestamp apart, is a function of the
    phase, the key and the three arguments. *)
Lemma fazer_predicao_sem_timestamp agora1 agora2 a mx mn e1 e2 :
  E.fase_detectada e1 = E.fase_detectada e2 ->
  E.chave_ativa_fase1 e1 = E.chave_ativa_fase1 e2 ->
  E.sem_timestamp (fst (E.fazer_predicao agora1 a mx mn e1))
  = E.sem_timestamp (fst (E.fazer_predicao agora2 a mx mn e2)).
Proof.
  intros Hf Hk. unfold E.fazer_predicao, E.fase_ou_2. rewrite Hf, Hk.
  destruct (Py.float a) as [qa|ea]; simpl; [|reflexivity].
  destruct (Py.float mx) as [qmx|emx]; simpl; [|reflexivity].
  destruct (Py.float mn) as [qmn|emn]; simpl; [|reflexivity].
  match goal with |- context [(?f =? 1)%Z] => destruct (f =? 1)%Z end.
  - destruct (E.predizer_fase1 _ _ _ _); reflexivity.
  - destruct (E.algoritmo_fibonacci_amplitude _ _ _); reflexivity.
Qed.

(** At one clock reading the whole result is that function. *)
Lemma fazer_predicao_mesmo_relogio agora a mx mn e1 e2 :
  E.fase_detectada e1 = E.fase_detectada e2 ->
  E.chave_ativa_fase1 e1 = E.chave_ativa_fase1 e2 ->
  fst (E.fazer_predicao agora a mx mn e1) = fst (E.fazer_predicao agora a mx mn e2).
Proof.
  intros Hf Hk. unfold E.fazer_predicao, E.fase_ou_2. rewrite Hf, Hk.
  match goal with |- context [match ?c with Ret _ => _ | Raise _ => _ end] =>
    destruct c end; reflexivity.
Qed.

Lemma predict_final_amplitude_statistics (p1 p2 : A.predictor)
      (high low price elapsed close : Q) (direction : string) :
  A.mean_amplitude p1 = A.mean_amplitude p2 ->
  A.amplitude_percentiles p1 = A.amplitude_percentiles p2 ->
  A.predict_final_amplitude p1 high low price elapsed close direction
  = A.predict_final_amplitude p2 high low price elapsed close direction.
Proof.
  intros Hm Hp.
  unfold A.predict_final_amplitude, A._get_percentile_position.
  rewrite Hm, Hp. reflexivity.
Qed.

(** C1, as stated, fails for [fazer_predicao]: the dict it returns carries
    the wall-clock time of the call, so a second call on the same instance
    with the same arguments returns a different dict. *)
Lemma C1_timestamp_counterexample :
  let r1 := E.fazer_predicao "2025-12-10T03:00:00.000001"
              (Numeric 10) (Numeric 20) (Numeric 0) E.init in
  let r2 := E.fazer_predicao "2025-12-10T03:00:00.500000"
              (Numeric 10) (Numeric 20) (Numeric 0) (snd r1) in
  fst r1 <> fst r2.
Proof.
  vm_compute. intro H. discriminate H.
Qed.

(** C1 (amended): for a fixed phase and key, two calls of [fazer_predicao]
    with identical arguments return dicts that agree on every entry other
    than [timestamp] (and on that one too when the clock reads the same),
    whatever predictions and confirmations each instance served before;
    and [predict_final_amplitude] returns identical dicts on
    identical arguments for any two instances with the same mean and
    percentile table. *)
Theorem C1_predictions_deterministic :
  (forall (e1 e2 : E.engine) (ops1 ops2 : list E.operacao)
          (agora1 agora2 : string) (a mx mn : pyval),
      E.fase_detectada e1 = E.fase_detectada e2 ->
      E.chave_ativa_fase1 e1 = E.chave_ativa_fase1 e2 ->
      E.sem_timestamp (fst (E.fazer_predicao agora1 a mx mn (E.executar_todas ops1 e1)))
      = E.sem_timestamp (fst (E.fazer_predicao agora2 a mx mn (E.executar_todas ops2 e2)))
      /\ (agora1 = agora2 ->
          fst (E.fazer_predicao agora1 a mx mn (E.executar_todas ops1 e1))
          = fst (E.fazer_predicao agora2 a mx mn (E.executar_todas ops2 e2))))
  /\ (forall (p1 p2 : A.predictor) (high low price elapsed close : Q)
             (direction : string),
         A.mean_amplitude p1 = A.mean_amplitude p2 ->
         A.amplitude_percentiles p1 = A.amplitude_percentiles p2 ->
         A.predict_final_amplitude p1 high low price elapsed close direction
         = A.predict_final_amplitude p2 high low price elapsed close direction).
Proof.
  split.
  - intros e1 e2 ops1 ops2 agora1 agora2 a mx mn Hf Hk.
    destruct (executar_todas_fase ops1 e1) as [Hf1 Hk1].
    destruct (executar_todas_fase ops2 e2) as [Hf2 Hk2].
    split.
    + apply fazer_predicao_sem_timestamp; congruence.
    + intros <-. apply fazer_predicao_mesmo_relogio; congruence.
  - intros. now apply predict_final_amplitude_statistics.
Qed.

Lemma C1_predictions_deterministic_witness :
  E.sem_timestamp
    (fst (E.fazer_predicao "2025-12-10T03:00:00" (Numeric 10) (Numeric 20) (Numeric 0)
            (E.executar_todas
               [E.OpPredicao "2025-12-10T02:00:00" (Numeric 3) (Numeric 4) (Numeric 1);
                E.OpConfirmacao (Numeric 2)] E.init)))
  = E.sem_timestamp
      (fst (E.fazer_predicao "2025-12-10T03:15:00" (Numeric 10) (Numeric 20) (Numeric 0)
              (E.executar_todas [] E.init)))
  /\ A.predict_final_amplitude (A.mkPredictor [] 2 []) 10 0 5 8 7 "compra"
     = A.predict_final_amplitude
         (A.mkPredictor [mkCandle None (Some 3) (Some 1) None] 2 []) 10 0 5 8 7 "compra".
Proof.
  split.
  - apply (proj1 C1_predictions_deterministic E.init E.init); reflexivity.
  - apply (proj2 C1_predictions_deterministic); reflexivity.
Defined.

(** C2, as stated, fails at its own example: for open 10, high 20, low 0
    the midpoint is 10, the open is not below it, and the code takes the
    bearish branch: 3.8200000000000003, not 16.18.  It also fails as a
    statement about the exact midpoint: the doubles nearest to 9400.05,
    9400.10 and 9400.0 have the open below their exact midpoint, yet the
    rounded midpoint is not above the open and the code answers with the
    bearish formula, not the bullish one. *)
Lemma C2_example_counterexample :
  (B.algoritmo_fibonacci_amplitude (B.Numeric 10) (B.Numeric 20) (B.Numeric 0)
   = B.Numeric 3.8200000000000003
   /\ (3.8200000000000003 <? 16.18)%float = true)
  /\ (exists o h l : Q,
         exato 9400.05 = Some o /\ exato 9400.10 = Some h /\ exato 9400.0 = Some l
         /\ o < (h + l) / 2
         /\ B.algoritmo_fibonacci_amplitude
              (B.Numeric 9400.05) (B.Numeric 9400.10) (B.Numeric 9400.0)
            = B.Numeric (9400.05 - 0.618 * (9400.05 - 9400.0))
         /\ (9400.05 - 0.618 * (9400.05 - 9400.0)
             <? 9400.05 + 0.618 * (9400.10 - 9400.05))%float = true).
Proof.
  split.
  - split; vm_compute; reflexivity.
  - do 3 eexists.
    split; [vm_compute; reflexivity|].
    split; [vm_compute; reflexivity|].
    split; [vm_compute; reflexivity|].
    split; [reflexivity|].
    split; vm_compute; reflexivity.
Qed.

(** C2 (amended): in binary64, the Phase-2 prediction is
    [open + 0.618*(high - open)] when the open is below the midpoint as the
    code computes it, the rounded sum of high and low halved, and
    [open - 0.618*(open - low)] otherwise, each operation rounded; open 10,
    high 20, low 0 gives 3.8200000000000003; and when the conversion of an
    argument fails the result is the open value. *)
Theorem C2_fibonacci_formula :
  (forall o h l : PrimFloat.float,
      ((o <? (h + l) / 2)%float = true ->
       B.algoritmo_fibonacci_amplitude (B.Numeric o) (B.Numeric h) (B.Numeric l)
       = B.Numeric (o + 0.618 * (h - o)))
      /\ ((o <? (h + l) / 2)%float = false ->
          B.algoritmo_fibonacci_amplitude (B.Numeric o) (B.Numeric h) (B.Numeric l)
          = B.Numeric (o - 0.618 * (o - l))))
  /\ B.algoritmo_fibonacci_amplitude (B.Numeric 10) (B.Numeric 20) (B.Numeric 0)
     = B.Numeric 3.8200000000000003
  /\ (forall (abertura_ maxima_ minima_ : B.pyval) (e : string),
         B.float abertura_ = Raise e \/ B.float maxima_ = Raise e
         \/ B.float minima_ = Raise e ->
         B.algoritmo_fibonacci_amplitude abertura_ maxima_ minima_ = abertura_).
Proof.
  split; [|split].
  - intros o h l. unfold B.algoritmo_fibonacci_amplitude. simpl.
    split; intro H; rewrite H; reflexivity.
  - vm_compute. reflexivity.
  - intros a mx mn e H. unfold B.algoritmo_fibonacci_amplitude.
    destruct a as [qa|ma]; simpl; [|reflexivity].
    destruct mx as [qmx|mmx]; simpl; [|reflexivity].
    destruct mn as [qmn|mmn]; simpl; [|reflexivity].
    destruct H as [H|[H|H]]; discriminate H.
Qed.

Lemma C2_fibonacci_formula_witness :
  B.algoritmo_fibonacci_amplitude (B.Numeric 9) (B.Numeric 20) (B.Numeric 0)
  = B.Numeric (9 + 0.618 * (20 - 9))
  /\ B.algoritmo_fibonacci_amplitude (B.Numeric 15) (B.Numeric 20) (B.Numeric 0)
     = B.Numeric (15 - 0.618 * (15 - 0))
  /\ B.algoritmo_fibonacci_amplitude (B.Numeric 15) (B.Malformed "could not convert")
       (B.Numeric 0) = B.Numeric 15.
Proof.
  split; [|split].
  - apply (proj1 (proj1 C2_fibonacci_formula 9%float 20%float 0%float)).
    vm_compute. reflexivity.
  - apply (proj2 (proj1 C2_fibonacci_formula 15%float 20%float 0%float)).
    vm_compute. reflexivity.
  - apply (proj2 (proj2 C2_fibonacci_formula) _ _ _ "could not convert"%string).
    right. left. reflexivity.
Defined.

(** The opens [detectar_fase] collects: those of the candles when all
    convert, the exception of a candle otherwise. *)
Lemma aberturas_convertidas (dados : list B.Candle) :
  (forallb abertura_converte dados = true ->
   mapM B.float_abertura dados = Ret (map valor_abertura dados))
  /\ (forallb abertura_converte dados = false ->
      exists e, mapM B.float_abertura dados = Raise e).
Proof.
  induction dados as [|c dados [IHt IHf]]; simpl; [split; [reflexivity|discriminate]|].
  unfold B.float_abertura at 1 3, abertura_converte at 1 3, valor_abertura at 1.
  destruct (B.abertura c) as [[x|msg]|]; simpl.
  - split; intro H; [rewrite (IHt H); reflexivity|].
    destruct (IHf H) as [e ->]. exists e. reflexivity.
  - split; [discriminate|eauto].
  - split; intro H; [rewrite (IHt H); reflexivity|].
    destruct (IHf H) as [e ->]. exists e. reflexivity.
Qed.

(** C8, as stated, fails twice.  A candle whose open is the string 'abc'
    makes [detectar_fase] raise, the instance untouched.  And the doubles
    1000.0000000000001 and 1000.0 have an arithmetic mean above 1000,
    while the mean the code computes is the rounded sum halved, which is
    1000.0: the phase is 1. *)
Lemma C8_detectar_fase_counterexample :
  (exists e,
      B.detectar_fase media_em_ordem
        [B.mkCandle (Some (B.Malformed "could not convert string to float: 'abc'"))
           None None None] E.init
      = (Raise e, E.init))
  /\ (exists o1 o2 : Q,
         exato 1000.0000000000001 = Some o1 /\ exato 1000.0 = Some o2
         /\ 1000 < media_aritmetica [o1; o2]
         /\ media_em_ordem [1000.0000000000001; 1000.0]%float = 1000.0%float
         /\ B.detectar_fase media_em_ordem
              [B.mkCandle (Some (B.Numeric 1000.0000000000001)) None None None;
               B.mkCandle (Some (B.Numeric 1000.0)) None None None] E.init
            = (Ret 1%Z, E.set_fase E.init (Some 1%Z))).
Proof.
  split.
  - eexists. vm_compute. reflexivity.
  - do 2 eexists.
    split; [vm_compute; reflexivity|].
    split; [vm_compute; reflexivity|].
    split; [reflexivity|].
    split; vm_compute; reflexivity.
Qed.

(** C8 (amended): [detectar_fase] returns 1 for an empty dataset and
    leaves the instance as it was.  On a non-empty dataset whose opens all
    convert (an absent open counts as 0) it returns 2 when the double
    [np.mean] computes from them exceeds 1000 and 1 otherwise, and stores
    that phase.  On a dataset with an open that [float()] rejects it
    raises, and the instance is left as it was. *)
Theorem C8_detectar_fase (np_mean : list PrimFloat.float -> PrimFloat.float)
        (dados : list B.Candle) (self : E.engine) :
  (dados = [] -> B.detectar_fase np_mean dados self = (Ret 1%Z, self))
  /\ (dados <> [] -> forallb abertura_converte dados = true ->
      let fase :=
        if (1000 <? np_mean (map valor_abertura dados))%float then 2%Z else 1%Z in
      B.detectar_fase np_mean dados self = (Ret fase, E.set_fase self (Some fase)))
  /\ (forallb abertura_converte dados = false ->
      exists e, B.detectar_fase np_mean dados self = (Raise e, self)).
Proof.
  destruct (aberturas_convertidas dados) as [Ht Hf].
  split; [intros ->; reflexivity|]. split.
  - intros Hne Hall. destruct dados as [|c dados]; [congruence|].
    unfold B.detectar_fase. rewrite (Ht Hall). reflexivity.
  - intro Hall. destruct dados as [|c dados]; [discriminate|].
    destruct (Hf Hall) as [e He]. exists e.
    unfold B.detectar_fase. rewrite He. reflexivity.
Qed.

Lemma C8_detectar_fase_witness :
  B.detectar_fase media_em_ordem [] E.init = (Ret 1%Z, E.init)
  /\ B.detectar_fase media_em_ordem
       [B.mkCandle (Some (B.Numeric 9400)) None None None;
        B.mkCandle (Some (B.Numeric 9410)) None None None] E.init
     = (Ret 2%Z, E.set_fase E.init (Some 2%Z))
  /\ B.detectar_fase media_em_ordem
       [B.mkCandle (Some (B.Numeric 0.9)) None None None;
        B.mkCandle None None None None] E.init
     = (Ret 1%Z, E.set_fase E.init (Some 1%Z))
  /\ exists e,
       B.detectar_fase media_em_ordem
         [B.mkCandle (Some (B.Numeric 0.9)) None None None;
          B.mkCandle (Some (B.Malformed "float() argument must be a string or a real number, not 'NoneType'"))
            None None None] E.init
       = (Raise e, E.init).
Proof.
  split; [|split; [|split]].
  - apply (proj1 (C8_detectar_fase media_em_ordem [] E.init)). reflexivity.
  - apply (proj1 (proj2 (C8_detectar_fase media_em_ordem
                           [B.mkCandle (Some (B.Numeric 9400)) None None None;
                            B.mkCandle (Some (B.Numeric 9410)) None None None] E.init)));
      [discriminate|reflexivity].
  - apply (proj1 (proj2 (C8_detectar_fase media_em_ordem
                           [B.mkCandle (Some (B.Numeric 0.9)) None None None;
                            B.mkCandle None None None None] E.init)));
      [discriminate|reflexivity].
  - apply (proj2 (proj2 (C8_detectar_fase media_em_ordem
                           [B.mkCandle (Some (B.Numeric 0.9)) None None None;
                            B.mkCandle (Some (B.Malformed "float() argument must be a string or a real number, not 'NoneType'"))
                              None None None] E.init))).
    reflexivity.
Defined.



(** C10: with an empty prediction history, [confirmar_resultado] returns
    its error dict and leaves the instance (counters, accuracy and history)
    exactly as it was. *)
Theorem C10_confirmar_sem_predicao (fechamento_real : pyval) (self : E.engine) :
  E.historico_predicoes self = [] ->
  exists msg,
    E.confirmar_resultado fechamento_real self = (E.ErroConfirmacao msg, self).
Proof.
  intro H. unfold E.confirmar_resultado. rewrite H. simpl. eauto.
Qed.

Lemma C10_confirmar_sem_predicao_witness :
  exists msg,
    E.confirmar_resultado (Numeric 9400) E.init = (E.ErroConfirmacao msg, E.init).
Proof.
  apply (C10_confirmar_sem_predicao (Numeric 9400) E.init). reflexivity.
Defined.

(** * The amplitude predictor: rule cascades *)

(** C3: the movement expectation is the first flag raised, in the order
    PULLBACK (0.75), GAIN_STRENGTH (0.80), CONSOLIDATE (0.70),
    REVERSE_COLOR (0.65), and NEUTRAL (0.50) when none is; the pullback flag
    is raised exactly on its rule; so price_position 0.9 with
    predicted_price_position 0.5 gives PULLBACK whatever the expansion
    probability and the other arguments. *)
Theorem C3_movement_first_match
        (current_price current_high current_low predicted_close : Q)
        (predicted_direction : string)
        (price_position predicted_price_position expansion_probability : Q) :
  let m := A._analyze_movement_expectation current_price current_high current_low
             predicted_close predicted_direction price_position
             predicted_price_position expansion_probability in
  (A.will_pullback m = true <->
   (0.75 < price_position /\ predicted_price_position < 0.6)
   \/ (price_position < 0.25 /\ 0.4 < predicted_price_position))
  /\ (A.will_pullback m = true ->
      A.expectation m = "PULLBACK"%string /\ A.confidence m = 0.75)
  /\ (A.will_pullback m = false -> A.will_gain_strength m = true ->
      A.expectation m = "GAIN_STRENGTH"%string /\ A.confidence m = 0.80)
  /\ (A.will_pullback m = false -> A.will_gain_strength m = false ->
      A.will_consolidate m = true ->
      A.expectation m = "CONSOLIDATE"%string /\ A.confidence m = 0.70)
  /\ (A.will_pullback m = false -> A.will_gain_strength m = false ->
      A.will_consolidate m = false -> A.will_reverse_color m = true ->
      A.expectation m = "REVERSE_COLOR"%string /\ A.confidence m = 0.65)
  /\ (A.will_pullback m = false -> A.will_gain_strength m = false ->
      A.will_consolidate m = false -> A.will_reverse_color m = false ->
      A.expectation m = "NEUTRAL"%string /\ A.confidence m = 0.50)
  /\ (price_position == 0.9 -> predicted_price_position == 0.5 ->
      A.expectation m = "PULLBACK"%string /\ A.confidence m = 0.75).
Proof.
  unfold A._analyze_movement_expectation. cbv zeta.
  set (gs := Qgtb expansion_probability 0.7 && _).
  set (co := Qltb expansion_probability 0.4 && _).
  set (rv := negb _ && Qgtb expansion_probability 0.6).
  assert (Hpb : (if Qgtb price_position 0.75 && Qltb predicted_price_position 0.6
                 then true
                 else if Qltb price_position 0.25 && Qgtb predicted_price_position 0.4
                      then true else false) = true
                <-> (0.75 < price_position /\ predicted_price_position < 0.6)
                    \/ (price_position < 0.25 /\ 0.4 < predicted_price_position)).
  { destruct (Qgtb price_position 0.75) eqn:H1;
      destruct (Qltb predicted_price_position 0.6) eqn:H2;
      destruct (Qltb price_position 0.25) eqn:H3;
      destruct (Qgtb predicted_price_position 0.4) eqn:H4;
      simpl; order_facts; split; intro H; auto; try discriminate;
      destruct H as [[Ha Hb]|[Ha Hb]]; absurd_order. }
  set (pb := if Qgtb price_position 0.75 && Qltb predicted_price_position 0.6
             then true else _) in *.
  assert (Hex : price_position == 0.9 -> predicted_price_position == 0.5 ->
                pb = true).
  { intros Hp Hq. apply Hpb. left. rewrite Hp, Hq. split; reflexivity. }
  clearbody pb gs co rv.
  destruct pb, gs, co, rv; simpl;
    (split; [exact Hpb|]);
    repeat split; intros; try reflexivity; try discriminate;
    match goal with
    | Hp : _ == 0.9, Hq : _ == 0.5 |- _ => discriminate (Hex Hp Hq)
    end.
Qed.

Lemma C3_movement_first_match_witness :
  A.expectation (A._analyze_movement_expectation 9 10 0 5 "compra" 0.9 0.5 0.95)
  = "PULLBACK"%string
  /\ A.confidence (A._analyze_movement_expectation 9 10 0 5 "compra" 0.9 0.5 0.95)
     = 0.75.
Proof.
  apply (proj2 (proj2 (proj2 (proj2 (proj2 (proj2
           (C3_movement_first_match 9 10 0 5 "compra" 0.9 0.5 0.95)))))));
    reflexivity.
Defined.

(** C4, as stated, fails at the time threshold: the code compares the
    elapsed minutes with 12.5, which is 5/6 of the 15 minutes, not 0.833.
    At 12.5 minutes the elapsed fraction is above 0.833 and the three other
    conditions hold, yet the strategy is not HIGH_CONFIDENCE. *)
Lemma C4_threshold_counterexample :
  let r := A.predict_final_amplitude (A.mkPredictor [] 0 []) 10 0 5 12.5 20 "compra" in
  let m := A._analyze_movement_expectation 5 10 0 20 "compra" 0.5 2 0.8225 in
  A.movement_expectation (A.recommendation r) = "GAIN_STRENGTH"%string
  /\ A.entry_strategy (A.recommendation r) = "NEUTRAL"%string
  /\ A.expectation m = "GAIN_STRENGTH"%string
  /\ 0.75 < 0.8225 /\ 0.75 < A.confidence m /\ 0.833 < 12.5 / 15
  /\ A.strategy (A._determine_entry_strategy "compra" m 0.8225 0.5 12.5)
     <> "HIGH_CONFIDENCE"%string.
Proof.
  vm_compute. repeat split; try reflexivity. intro H. discriminate H.
Qed.

Lemma andb4_true (a b c d : bool) (A B C D : Prop) :
  (a = true <-> A) -> (b = true <-> B) -> (c = true <-> C) -> (d = true <-> D) ->
  (a && b && c && d = true <-> A /\ B /\ C /\ D).
Proof.
  intros Ha Hb Hc Hd. rewrite !andb_true_iff. tauto.
Qed.

(** C4 (amended): the entry strategy is the first rule that matches, in
    the order HIGH_CONFIDENCE, DEFENSE, WAIT, HEDGE, NEUTRAL.
    HIGH_CONFIDENCE (modifier +25, stake HIGH, risk MEDIUM) is returned
    exactly when the expectation is GAIN_STRENGTH, the expansion
    probability and the movement confidence are above 0.75 and more than
    12.5 minutes have elapsed; HEDGE (0, NORMAL, MEDIUM) when no earlier
    rule matched and the expansion probability is strictly between 0.5 and
    0.75.  More than 12.5 minutes is an elapsed fraction above 5/6. *)
Theorem C4_entry_first_match
        (predicted_direction : string) (m : A.Movement)
        (expansion_probability price_position elapsed_minutes : Q) :
  let s := A._determine_entry_strategy predicted_direction m
             expansion_probability price_position elapsed_minutes in
  let high_confidence :=
    A.expectation m = "GAIN_STRENGTH"%string /\ 0.75 < expansion_probability
    /\ 0.75 < A.confidence m /\ 12.5 < elapsed_minutes in
  let defense :=
    A.expectation m = "PULLBACK"%string \/ A.expectation m = "REVERSE_COLOR"%string in
  let wait := A.expectation m = "CONSOLIDATE"%string in
  let hedge := 0.5 < expansion_probability /\ expansion_probability < 0.75 in
  (A.strategy s = "HIGH_CONFIDENCE"%string <-> high_confidence)
  /\ (high_confidence ->
      A.confidence_modifier s = 25%Z /\ A.stake_type s = "HIGH"%string
      /\ A.risk_level s = "MEDIUM"%string)
  /\ (~ high_confidence -> defense ->
      A.strategy s = "DEFENSE"%string /\ A.confidence_modifier s = (-20)%Z
      /\ A.stake_type s = "LOW"%string /\ A.risk_level s = "HIGH"%string)
  /\ (~ high_confidence -> ~ defense -> wait ->
      A.strategy s = "WAIT"%string /\ A.confidence_modifier s = (-30)%Z
      /\ A.stake_type s = "NONE"%string /\ A.risk_level s = "HIGH"%string)
  /\ (~ high_confidence -> ~ defense -> ~ wait -> hedge ->
      A.strategy s = "HEDGE"%string /\ A.confidence_modifier s = 0%Z
      /\ A.stake_type s = "NORMAL"%string /\ A.risk_level s = "MEDIUM"%string)
  /\ (~ high_confidence -> ~ defense -> ~ wait -> ~ hedge ->
      A.strategy s = "NEUTRAL"%string /\ A.confidence_modifier s = 0%Z
      /\ A.stake_type s = "NORMAL"%string /\ A.risk_level s = "MEDIUM"%string)
  /\ (12.5 < elapsed_minutes <-> 5 # 6 < elapsed_minutes / 15).
Proof.
  intros s high_confidence defense wait hedge.
  assert (Hfrac : 12.5 < elapsed_minutes <-> 5 # 6 < elapsed_minutes / 15).
  { split; intro H.
    - apply Qlt_shift_div_l; [reflexivity|lra].
    - apply (Qmult_lt_compat_r _ _ 15) in H; [|reflexivity].
      assert (Hx : elapsed_minutes / 15 * 15 == elapsed_minutes) by (field; discriminate).
      lra. }
  unfold A._determine_entry_strategy in s.
  set (bhc := (A.expectation m =? "GAIN_STRENGTH")%string
              && Qgtb expansion_probability 0.75
              && Qgtb (A.confidence m) 0.75 && Qgtb elapsed_minutes 12.5) in s.
  set (bdef := ((A.expectation m =? "PULLBACK")%string
                || (A.expectation m =? "REVERSE_COLOR")%string)) in s.
  set (bwait := (A.expectation m =? "CONSOLIDATE")%string) in s.
  set (bhedge := Qgtb expansion_probability 0.5 && Qltb expansion_probability 0.75) in s.
  assert (Hhc : bhc = true <-> high_confidence).
  { apply andb4_true;
      [apply String.eqb_eq | apply Qgtb_true | apply Qgtb_true | apply Qgtb_true]. }
  assert (Hdef : bdef = true <-> defense).
  { unfold bdef, defense. rewrite orb_true_iff, !String.eqb_eq. tauto. }
  assert (Hwait : bwait = true <-> wait) by apply String.eqb_eq.
  assert (Hhedge : bhedge = true <-> hedge).
  { unfold bhedge, hedge. rewrite andb_true_iff, Qgtb_true, Qltb_true. tauto. }
  clearbody bhc bdef bwait bhedge high_confidence defense wait hedge.
  subst s.
  destruct bhc, bdef, bwait, bhedge; simpl;
    repeat split; intros; try reflexivity; try tauto;
    try (exfalso; intuition discriminate);
    try (apply Hhc; assumption);
    try (apply Hfrac; assumption).
Qed.

Lemma C4_entry_first_match_witness :
  let m := A._analyze_movement_expectation 5 10 0 20 "compra" 0.5 2 0.8225 in
  A.confidence_modifier (A._determine_entry_strategy "compra" m 0.8225 0.5 13) = 25%Z
  /\ A.stake_type (A._determine_entry_strategy "compra" m 0.8225 0.5 13) = "HIGH"%string
  /\ A.risk_level (A._determine_entry_strategy "compra" m 0.8225 0.5 13) = "MEDIUM"%string.
Proof.
  apply (proj1 (proj2 (C4_entry_first_match "compra"
           (A._analyze_movement_expectation 5 10 0 20 "compra" 0.5 2 0.8225)
           0.8225 0.5 13))).
  repeat split; reflexivity.
Defined.

(** * The amplitude predictor: expansion probability *)

Lemma min_max_clamp01 (x : Q) : Py.min 1.0 (Py.max 0 x) == clamp01 x.
Proof.
  unfold clamp01, Py.min, Py.max.
  destruct (Qltb 0 x) eqn:H0; destruct (Qltb x 1) eqn:H1.
  - rewrite H0. destruct (Qltb x 1.0) eqn:H2; [reflexivity|].
    order_facts. lra.
  - destruct (Qltb 0 1) eqn:H3; [|discriminate].
    destruct (Qltb x 1.0) eqn:H2; [|reflexivity]. order_facts. lra.
  - rewrite H0. destruct (Qltb 0 1.0) eqn:H2; [reflexivity|discriminate].
  - order_facts. lra.
Qed.

Lemma clamp01_fator_tempo (elapsed_minutes : Q) :
  clamp01 (fator_tempo elapsed_minutes) = fator_tempo elapsed_minutes.
Proof.
  unfold fator_tempo.
  destruct (Qgtb (elapsed_minutes / 15.0) 0.83); [reflexivity|].
  destruct (Qgtb (elapsed_minutes / 15.0) 0.67); reflexivity.
Qed.

Lemma clamp01_fator_rompimento (high low close : Q) :
  clamp01 (fator_rompimento high low close) = fator_rompimento high low close.
Proof.
  unfold fator_rompimento.
  destruct (Qgtb close high || Qltb close low); reflexivity.
Qed.

(** The value the code computes, with the factors named. *)
Lemma expansion_probability_factors
      (current_amplitude predicted_amplitude elapsed_minutes current_price
       current_high current_low predicted_close : Q) (predicted_direction : string) :
  A._calculate_expansion_probability current_amplitude predicted_amplitude
    elapsed_minutes current_price current_high current_low predicted_close
    predicted_direction
  == probabilidade_sem_clamp_posicao current_amplitude predicted_amplitude
       elapsed_minutes current_price current_high current_low predicted_close.
Proof.
  unfold A._calculate_expansion_probability, probabilidade_sem_clamp_posicao.
  cbv zeta. fold (clamp01 (Py.min 1.0 (Py.max 0
    (if Qgtb current_amplitude 0
     then (predicted_amplitude - current_amplitude) / current_amplitude else 0))
    * 0.25
    + (1 - Qabs ((if Qgtb current_amplitude 0
                  then (current_price - current_low) / current_amplitude
                  else 0.5) - 0.5) * 2) * 0.20
    + (if Qgtb (elapsed_minutes / 15.0) 0.83 then 0.85
       else if Qgtb (elapsed_minutes / 15.0) 0.67 then 0.65 else 0.45) * 0.30
    + (if Qgtb predicted_close current_high || Qltb predicted_close current_low
       then 0.9 else 0.5) * 0.25)).
  apply clamp01_compat.
  rewrite clamp01_fator_tempo, clamp01_fator_rompimento.
  rewrite min_max_clamp01.
  unfold fator_posicao, posicao_preco, fator_tempo, fator_rompimento,
    fator_crescimento.
  ring.
Qed.

Lemma posicao_preco_bounds (current_amplitude current_price current_low : Q) :
  (0 < current_amplitude ->
   current_low <= current_price <= current_low + current_amplitude) ->
  0 <= fator_posicao current_amplitude current_price current_low <= 1.
Proof.
  intro H. unfold fator_posicao, posicao_preco.
  destruct (Qgtb current_amplitude 0) eqn:Ha.
  - apply Qgtb_true in Ha. destruct (H Ha) as [Hl Hh].
    set (pp := (current_price - current_low) / current_amplitude).
    assert (H0 : 0 <= pp).
    { apply Qle_shift_div_l; [exact Ha|]. lra. }
    assert (H1 : pp <= 1).
    { apply Qle_shift_div_r; [exact Ha|]. lra. }
    apply Qabs_case; intro Hc; lra.
  - vm_compute. split; discriminate.
Qed.

(** C5, as stated, fails: the code does not clamp the position factor.
    With the price above the high (price 11 in a candle from 0 to 10) the
    factor is -0.2 and lowers the sum; clamping it first gives another
    probability. *)
Lemma C5_position_factor_counterexample :
  fator_posicao 10 11 0 == - 0.2
  /\ A._calculate_expansion_probability 10 15 0 11 10 0 5 "compra" == 0.345
  /\ A.expansion_probability_out
       (A.predict_final_amplitude (A.mkPredictor [] 0 []) 10 0 11 0 5 "compra")
     == 0.345
  /\ probabilidade_descrita 10 15 0 11 10 0 5 == 0.385
  /\ ~ A._calculate_expansion_probability 10 15 0 11 10 0 5 "compra"
       == probabilidade_descrita 10 15 0 11 10 0 5.
Proof.
  repeat split; try reflexivity. intro H. vm_compute in H. discriminate H.
Qed.

(** C5 (amended): the expansion probability is the sum of the four factors
    weighted 0.25, 0.20, 0.30, 0.25 and clamped to [0, 1]; the growth
    factor is clamped to [0, 1] before weighting, the time and breakout
    factors are constants of [0, 1], and the position factor
    [1 - 2*|price_position - 0.5|] enters as it is.  Whenever the current
    price lies within the candle's range that factor is in [0, 1] too, and
    the probability is the one with every factor clamped. *)
Theorem C5_expansion_probability
        (current_amplitude predicted_amplitude elapsed_minutes current_price
         current_high current_low predicted_close : Q) (predicted_direction : string) :
  A._calculate_expansion_probability current_amplitude predicted_amplitude
    elapsed_minutes current_price current_high current_low predicted_close
    predicted_direction
  == probabilidade_sem_clamp_posicao current_amplitude predicted_amplitude
       elapsed_minutes current_price current_high current_low predicted_close
  /\ ((0 < current_amplitude ->
       current_low <= current_price <= current_low + current_amplitude) ->
      A._calculate_expansion_probability current_amplitude predicted_amplitude
        elapsed_minutes current_price current_high current_low predicted_close
        predicted_direction
      == probabilidade_descrita current_amplitude predicted_amplitude
           elapsed_minutes current_price current_high current_low predicted_close)
  /\ 0 <= A._calculate_expansion_probability current_amplitude predicted_amplitude
            elapsed_minutes current_price current_high current_low predicted_close
            predicted_direction <= 1.
Proof.
  split; [apply expansion_probability_factors|]. split.
  - intro H. rewrite expansion_probability_factors.
    unfold probabilidade_sem_clamp_posicao, probabilidade_descrita.
    apply clamp01_compat.
    destruct (posicao_preco_bounds _ _ _ H) as [H0 H1].
    rewrite (clamp01_id _ H0 H1). reflexivity.
  - unfold A._calculate_expansion_probability. cbv zeta.
    match goal with |- 0 <= Py.max 0 (Py.min 1 ?x) <= 1 => generalize x end.
    intro x. unfold Py.max, Py.min.
    destruct (Qltb x 1) eqn:H1.
    + destruct (Qltb 0 x) eqn:H0; order_facts; split; lra.
    + destruct (Qltb 0 1) eqn:H0; [|discriminate]. split; lra.
Qed.

Lemma C5_expansion_probability_witness :
  A._calculate_expansion_probability 10 15.7 12.5 5 10 0 20 "compra"
  == probabilidade_descrita 10 15.7 12.5 5 10 0 20.
Proof.
  apply (proj1 (proj2 (C5_expansion_probability 10 15.7 12.5 5 10 0 20 "compra"))).
  intros _. split; vm_compute; discriminate.
Defined.

(** * The amplitude predictor: percentile position *)

(** What the constructor leaves in the percentile table: nothing, or one
    value under each of the six keys. *)
Lemma init_percentiles (cs : list Candle) (p : A.predictor) :
  A.init cs = Ret p ->
  A.amplitude_percentiles p = []
  \/ exists v10 v25 v50 v75 v90 v95 : Q,
      A.amplitude_percentiles p
      = [(10, v10); (25, v25); (50, v50); (75, v75); (90, v90); (95, v95)]%Z.
Proof.
  unfold A.init, A._calculate_statistics. simpl.
  destruct cs as [|c cs].
  - intro H. injection H as <-. left. reflexivity.
  - destruct (A.collect_amplitudes (c :: cs)) as [amps|e]; simpl; [|discriminate].
    destruct amps as [|x amps]; intro H; injection H as <-.
    + left. reflexivity.
    + right. simpl. repeat eexists.
Qed.

(** C6, as stated, fails on the empty table: the code answers 50 there,
    not 10. *)
Lemma C6_empty_table_counterexample :
  exists p, A.init [] = Ret p
            /\ A.amplitude_percentiles p = []
            /\ A._get_percentile_position p 3 = 50%Z
            /\ A._get_percentile_position p 3 <> 10%Z.
Proof.
  eexists. split; [reflexivity|]. repeat split. discriminate.
Qed.

(** C6 (amended): on an empty percentile table the position is 50.  On the
    table a constructor filled, the keys are scanned as 95, 90, 75, 50, 25,
    10 and the position is the first key whose stored value is at most the
    amplitude, 10 when there is none. *)
Theorem C6_percentile_position :
  (forall (p : A.predictor) (amplitude : Q),
      A.amplitude_percentiles p = [] ->
      A._get_percentile_position p amplitude = 50%Z)
  /\ (forall (cs : list Candle) (p : A.predictor) (amplitude : Q),
         A.init cs = Ret p ->
         A.amplitude_percentiles p <> [] ->
         A.sorted_reverse (A.keys (A.amplitude_percentiles p))
         = [95; 90; 75; 50; 25; 10]%Z
         /\ A._get_percentile_position p amplitude
            = varredura_descrita (A.amplitude_percentiles p) amplitude).
Proof.
  split.
  - intros p amplitude H. unfold A._get_percentile_position. now rewrite H.
  - intros cs p amplitude Hinit Hne.
    destruct (init_percentiles cs p Hinit)
      as [H|(v10 & v25 & v50 & v75 & v90 & v95 & H)]; [contradiction|].
    unfold A._get_percentile_position, varredura_descrita. rewrite H.
    split; [reflexivity|].
    simpl. unfold Qgeb.
    destruct (Qle_bool v95 amplitude); [reflexivity|].
    destruct (Qle_bool v90 amplitude); [reflexivity|].
    destruct (Qle_bool v75 amplitude); [reflexivity|].
    destruct (Qle_bool v50 amplitude); [reflexivity|].
    destruct (Qle_bool v25 amplitude); [reflexivity|].
    destruct (Qle_bool v10 amplitude); reflexivity.
Qed.

Lemma C6_percentile_position_witness :
  A._get_percentile_position (A.mkPredictor [] 0 []) 3 = 50%Z
  /\ exists p,
      A.init amostra_amplitudes = Ret p
      /\ A._get_percentile_position p 3.5
         = varredura_descrita (A.amplitude_percentiles p) 3.5.
Proof.
  split.
  - apply (proj1 C6_percentile_position). reflexivity.
  - eexists. split; [vm_compute; reflexivity|].
    apply (proj2 C6_percentile_position amostra_amplitudes _ 3.5).
    + vm_compute. reflexivity.
    + discriminate.
Defined.

(** * The Phase-1 key backtest *)

(** One loop iteration against the description of a pair. *)
Lemma testar_par_descrito (f : Q -> exc Q) (anterior atual : Candle) :
  match E.testar_par f anterior atual with
  | Ret b => par_descrito f (anterior, atual) = Some b
  | Raise _ => par_descrito f (anterior, atual) = None
  end.
Proof.
  unfold E.testar_par, par_descrito. simpl.
  destruct (abertura anterior) as [o|]; simpl; [|reflexivity].
  destruct (fechamento atual) as [c|]; simpl; [|reflexivity].
  destruct (f o) as [v|e]; simpl.
  - destruct (abertura atual) as [o'|]; simpl; [|reflexivity].
    destruct (Qgtb v 0.5), (Qgtb c o'); reflexivity.
  - destruct (abertura atual); reflexivity.
Qed.

(** Past the first pair, the loop over [c :: dados] at index [S i] is the
    loop over [dados] at index [i]. *)
Lemma testar_passo_shift (f : Q -> exc Q) (c : Candle) (dados : list Candle)
      (st : Z * Z) (i : nat) :
  (1 <= i)%nat ->
  E.testar_passo (c :: dados) f st (S i) = E.testar_passo dados f st i.
Proof.
  intro Hi. unfold E.testar_passo.
  destruct i as [|i]; [lia|]. simpl. rewrite Nat.sub_0_r. reflexivity.
Qed.

Lemma fold_testar_shift (f : Q -> exc Q) (c : Candle) (dados : list Candle)
      (n : nat) : forall (k : nat) (st : Z * Z),
  (1 <= k)%nat ->
  fold_left (E.testar_passo (c :: dados) f) (seq (S k) n) st
  = fold_left (E.testar_passo dados f) (seq k n) st.
Proof.
  induction n as [|n IH]; intros k st Hk; simpl; [reflexivity|].
  rewrite (testar_passo_shift f c dados st k Hk).
  apply IH. lia.
Qed.

Lemma pares_cons (f : Q -> exc Q) (c c' : Candle) (dados : list Candle) :
  Z.of_nat (pares_certos f (c :: c' :: dados))
  = (conta (match par_descrito f (c, c') with Some true => true | _ => false end)
     + Z.of_nat (pares_certos f (c' :: dados)))%Z
  /\ Z.of_nat (pares_avaliados f (c :: c' :: dados))
     = (conta (match par_descrito f (c, c') with Some _ => true | None => false end)
        + Z.of_nat (pares_avaliados f (c' :: dados)))%Z.
Proof.
  unfold pares_certos, pares_avaliados, pares_consecutivos. simpl tl.
  change (combine (c :: c' :: dados) (c' :: dados))
    with ((c, c') :: combine (c' :: dados) dados).
  simpl filter.
  destruct (par_descrito f (c, c')) as [[|]|]; simpl length; simpl conta;
    split; lia.
Qed.

(** The counters after the loop are the numbers of hits and of usable
    pairs among the consecutive pairs. *)
Lemma testar_loop (f : Q -> exc Q) (dados : list Candle) : forall (a t : Z),
  fold_left (E.testar_passo dados f) (seq 1 (length dados - 1)) (a, t)
  = ((a + Z.of_nat (pares_certos f dados))%Z,
     (t + Z.of_nat (pares_avaliados f dados))%Z).
Proof.
  induction dados as [|c dados IH]; intros a t.
  - simpl. now rewrite !Z.add_0_r.
  - destruct dados as [|c' dados].
    + simpl. now rewrite !Z.add_0_r.
    + replace (length (c :: c' :: dados) - 1)%nat
        with (S (length (c' :: dados) - 1)) by (simpl; lia).
      cbn [seq fold_left].
      rewrite fold_testar_shift by lia.
      destruct (pares_cons f c c' dados) as [Hc Ha]. rewrite Hc, Ha.
      unfold E.testar_passo at 2. cbn [Nat.sub nth_error].
      pose proof (testar_par_descrito f c c') as Hp.
      destruct (E.testar_par f c c') as [[|]|e]; rewrite Hp, IH;
        simpl conta; f_equal; lia.
Qed.

(** C7, as stated, fails on its last clause: the code returns 0 when the
    dataset has fewer than 5 candles, not when fewer than 5 pairs are
    usable.  Five candles give four pairs, all usable and all hits under
    the key [last_integer_digit], and the score is 1. *)
Lemma C7_four_pairs_counterexample :
  length amostra_cinco_verdes = 5%nat
  /\ pares_avaliados E.last_integer_digit amostra_cinco_verdes = 4%nat
  /\ (pares_avaliados E.last_integer_digit amostra_cinco_verdes < 5)%nat
  /\ E._testar_chave_fase1 amostra_cinco_verdes E.last_integer_digit == 1
  /\ ~ E._testar_chave_fase1 amostra_cinco_verdes E.last_integer_digit == 0.
Proof.
  assert (H4 : pares_avaliados E.last_integer_digit amostra_cinco_verdes = 4%nat)
    by (vm_compute; reflexivity).
  repeat split; try assumption; try reflexivity.
  - rewrite H4. lia.
  - intro H. vm_compute in H. discriminate H.
Qed.

(** C7 (amended): a pair is a hit exactly when "key value of the prior open
    above 0.5" and "current close above current open" agree; on a dataset
    of at least 5 candles the score is the hits over the usable pairs among
    all consecutive pairs (0 when no pair is usable); on a dataset of fewer
    than 5 candles the score is 0. *)
Theorem C7_backtest_score (funcao_chave : Q -> exc Q) (dados : list Candle) :
  ((length dados < 5)%nat -> E._testar_chave_fase1 dados funcao_chave = 0)
  /\ ((5 <= length dados)%nat ->
      E._testar_chave_fase1 dados funcao_chave
      = if (0 <? Z.of_nat (pares_avaliados funcao_chave dados))%Z
        then inject_Z (Z.of_nat (pares_certos funcao_chave dados))
             / inject_Z (Z.of_nat (pares_avaliados funcao_chave dados))
        else 0)
  /\ (forall (anterior atual : Candle) (o c o' v : Q),
         abertura anterior = Some o -> fechamento atual = Some c ->
         abertura atual = Some o' -> funcao_chave o = Ret v ->
         (E.testar_par funcao_chave anterior atual = Ret true
          <-> (0.5 < v <-> o' < c))).
Proof.
  split; [|split].
  - intro H. unfold E._testar_chave_fase1.
    apply Nat.ltb_lt in H. now rewrite H.
  - intro H. unfold E._testar_chave_fase1.
    apply Nat.ltb_ge in H. rewrite H, testar_loop. reflexivity.
  - intros anterior atual o c o' v Ho Hc Ho' Hv.
    unfold E.testar_par. rewrite Ho, Hc, Ho'. simpl. rewrite Hv. simpl.
    destruct (Qgtb v 0.5) eqn:H1; destruct (Qgtb c o') eqn:H2; simpl;
      order_facts; split; intro H; try reflexivity; try discriminate;
      try tauto.
    + exfalso. apply H in H1. absurd_order.
    + exfalso. apply H in H2. absurd_order.
    + split; intro; absurd_order.
Qed.

Lemma C7_backtest_score_witness :
  E._testar_chave_fase1 (firstn 4 amostra_cinco_verdes) E.last_integer_digit = 0
  /\ E._testar_chave_fase1 amostra_cinco_verdes E.last_integer_digit
     = inject_Z 4 / inject_Z 4.
Proof.
  split.
  - apply (proj1 (C7_backtest_score E.last_integer_digit
                    (firstn 4 amostra_cinco_verdes))).
    simpl. lia.
  - apply (proj1 (proj2 (C7_backtest_score E.last_integer_digit
                           amostra_cinco_verdes))).
    simpl. lia.
Defined.

(** * Further properties of the prediction engine *)

Lemma filter_length_imp {X : Type} (p q : X -> bool) (l : list X) :
  (forall x, p x = true -> q x = true) ->
  (length (filter p l) <= length (filter q l))%nat.
Proof.
  intro H. induction l as [|x l IH]; simpl; [lia|].
  destruct (p x) eqn:Hp.
  - rewrite (H x Hp). simpl. lia.
  - destruct (q x); simpl; lia.
Qed.

Lemma pares_certos_le (f : Q -> exc Q) (dados : list Candle) :
  (pares_certos f dados <= pares_avaliados f dados)%nat.
Proof.
  unfold pares_certos, pares_avaliados. apply filter_length_imp.
  intros par H. destruct (par_descrito f par) as [[|]|]; congruence.
Qed.

Lemma testar_chave_bounds (f : Q -> exc Q) (dados : list Candle) :
  0 <= E._testar_chave_fase1 dados f <= 1.
Proof.
  unfold E._testar_chave_fase1.
  destruct (length dados <? 5)%nat; [split; discriminate|].
  rewrite testar_loop. rewrite !Z.add_0_l.
  pose proof (pares_certos_le f dados) as Hle.
  destruct (0 <? Z.of_nat (pares_avaliados f dados))%Z eqn:Hpos;
    [|split; discriminate].
  apply Z.ltb_lt in Hpos.
  assert (Ht : 0 < inject_Z (Z.of_nat (pares_avaliados f dados))).
  { rewrite <- (Zlt_Qlt 0). exact Hpos. }
  split.
  - apply Qle_shift_div_l; [exact Ht|]. rewrite Qmult_0_l.
    rewrite <- (Zle_Qle 0). lia.
  - apply Qle_shift_div_r; [exact Ht|]. rewrite Qmult_1_l.
    rewrite <- Zle_Qle. lia.
Qed.

(** X1: the backtest score of any key on any dataset is a fraction
    between 0 and 1. *)
Theorem X1_score_between_0_and_1 (funcao_chave : Q -> exc Q) (dados : list Candle) :
  0 <= E._testar_chave_fase1 dados funcao_chave
  /\ E._testar_chave_fase1 dados funcao_chave <= 1.
Proof.
  apply testar_chave_bounds.
Qed.

Ltac chave_escolhida sf fecha :=
  first
    [ exists [], ("sum_last_3"%string, E.sum_last_3 sf),
        [("1st_digit_parity"%string, E.first_digit_parity sf);
         ("decimal_pattern"%string, E.decimal_pattern sf);
         ("last_integer_digit"%string, E.last_integer_digit)]; solve [fecha]
    | exists [("sum_last_3"%string, E.sum_last_3 sf)],
        ("1st_digit_parity"%string, E.first_digit_parity sf),
        [("decimal_pattern"%string, E.decimal_pattern sf);
         ("last_integer_digit"%string, E.last_integer_digit)]; solve [fecha]
    | exists [("sum_last_3"%string, E.sum_last_3 sf);
              ("1st_digit_parity"%string, E.first_digit_parity sf)],
        ("decimal_pattern"%string, E.decimal_pattern sf),
        [("last_integer_digit"%string, E.last_integer_digit)]; solve [fecha]
    | exists [("sum_last_3"%string, E.sum_last_3 sf);
              ("1st_digit_parity"%string, E.first_digit_parity sf);
              ("decimal_pattern"%string, E.decimal_pattern sf)],
        ("last_integer_digit"%string, E.last_integer_digit),
        []; solve [fecha] ].

(** X2: on 10 candles or more, [descobrir_chave_fase1] stores the key it
    returns, and that key is the first of the four with the highest
    backtest score: it beats every key listed before it and is not beaten
    by any key listed after it. *)
Theorem X2_descobrir_chave_best_first
        (str_float : Q -> string) (dados : list Candle) (self : E.engine) :
  (10 <= length dados)%nat ->
  exists pre kf post,
    E.funcoes_chave str_float = pre ++ kf :: post
    /\ E.descobrir_chave_fase1 str_float dados self
       = (fst kf, E.set_chave self (Some (fst kf)))
    /\ (forall kf', In kf' pre -> score dados kf' < score dados kf)
    /\ (forall kf', In kf' post -> score dados kf' <= score dados kf).
Proof.
  intro Hlen. unfold E.descobrir_chave_fase1.
  apply Nat.ltb_ge in Hlen. rewrite Hlen.
  unfold E.funcoes_chave. cbn [fold_left]. unfold E.descobrir_passo.
  cbn [fst snd].
  pose proof (testar_chave_bounds (E.sum_last_3 str_float) dados) as [H1 _].
  pose proof (testar_chave_bounds (E.first_digit_parity str_float) dados) as [H2 _].
  pose proof (testar_chave_bounds (E.decimal_pattern str_float) dados) as [H3 _].
  pose proof (testar_chave_bounds E.last_integer_digit dados) as [H4 _].
  set (s1 := E._testar_chave_fase1 dados (E.sum_last_3 str_float)) in *.
  set (s2 := E._testar_chave_fase1 dados (E.first_digit_parity str_float)) in *.
  set (s3 := E._testar_chave_fase1 dados (E.decimal_pattern str_float)) in *.
  set (s4 := E._testar_chave_fase1 dados E.last_integer_digit) in *.
  destruct (Qgtb s1 0) eqn:C1;
    match goal with |- context [Qgtb s2 ?b] => destruct (Qgtb s2 b) eqn:C2 end;
    match goal with |- context [Qgtb s3 ?b] => destruct (Qgtb s3 b) eqn:C3 end;
    match goal with |- context [Qgtb s4 ?b] => destruct (Qgtb s4 b) eqn:C4 end;
    order_facts;
    chave_escolhida str_float
      ltac:((split; [reflexivity|]); (split; [reflexivity|]);
            split; intros kf' Hin; simpl in Hin;
            repeat (destruct Hin as [<-|Hin];
                    [unfold score; simpl; fold s1 s2 s3 s4; lra|]);
            contradiction).
Qed.

Lemma X2_descobrir_chave_best_first_witness :
  exists pre kf post,
    E.funcoes_chave (fun _ => "1.2"%string) = pre ++ kf :: post
    /\ E.descobrir_chave_fase1 (fun _ => "1.2"%string)
         (amostra_cinco_verdes ++ amostra_cinco_verdes) E.init
       = (fst kf, E.set_chave E.init (Some (fst kf)))
    /\ (forall kf', In kf' pre ->
                    score (amostra_cinco_verdes ++ amostra_cinco_verdes) kf'
                    < score (amostra_cinco_verdes ++ amostra_cinco_verdes) kf)
    /\ (forall kf', In kf' post ->
                    score (amostra_cinco_verdes ++ amostra_cinco_verdes) kf'
                    <= score (amostra_cinco_verdes ++ amostra_cinco_verdes) kf).
Proof.
  apply (X2_descobrir_chave_best_first (fun _ => "1.2"%string)
           (amostra_cinco_verdes ++ amostra_cinco_verdes) E.init).
  simpl. lia.
Defined.

Lemma detectar_fase_nonempty (dados : list Candle) (self : E.engine) :
  dados <> [] ->
  exists fase,
    E.detectar_fase dados self = (fase, E.set_fase self (Some fase))
    /\ (fase = 1%Z \/ fase = 2%Z)
    /\ (fase = 2%Z <-> 1000 < media_aritmetica (aberturas dados)).
Proof.
  intro Hne. destruct dados as [|c dados]; [contradiction|].
  unfold E.detectar_fase. fold (aberturas (c :: dados)). cbv zeta.
  destruct (Qgtb (Py.mean (aberturas (c :: dados))) 1000) eqn:Hm.
  - apply Qgtb_true in Hm. rewrite mean_media_aritmetica in Hm.
    exists 2%Z. repeat split; auto.
  - apply Qgtb_false in Hm. rewrite mean_media_aritmetica in Hm.
    exists 1%Z. repeat split; auto; try discriminate.
    intro H. exfalso. apply (Qlt_not_le _ _ H Hm).
Qed.

Lemma descobrir_chave_estado (sf : Q -> string) (dados : list Candle) (self : E.engine) :
  snd (E.descobrir_chave_fase1 sf dados self) = self
  \/ exists k, snd (E.descobrir_chave_fase1 sf dados self) = E.set_chave self (Some k).
Proof.
  unfold E.descobrir_chave_fase1.
  destruct (length dados <? 10)%nat; [left; reflexivity|].
  destruct (fold_left _ _ _) as [k s]. right. exists k. reflexivity.
Qed.

Lemma fazer_predicao_fase_usada agora a mx mn self p :
  fst (E.fazer_predicao agora a mx mn self) = Ret (E.Sucesso p) ->
  E.fase_usada p = E.fase_ou_2 self.
Proof.
  unfold E.fazer_predicao.
  destruct (Py.float a) as [qa|]; simpl; [|discriminate].
  destruct (Py.float mx) as [qmx|]; simpl; [|discriminate].
  destruct (Py.float mn) as [qmn|]; simpl; [|discriminate].
  destruct (E.fase_ou_2 self =? 1)%Z.
  - destruct (E.predizer_fase1 _ _ _ _); simpl; [|discriminate].
    intro H. injection H as <-. reflexivity.
  - destruct (E.algoritmo_fibonacci_amplitude _ _ _); simpl; [|discriminate].
    intro H. injection H as <-. reflexivity.
Qed.



(** X4: on a non-empty dataset, the phase [alimentar_dados] reports is the
    phase it stores, and every later successful prediction on the instance,
    after any predictions and confirmations, uses that phase; when it is
    Phase 2 the stored key is left as it was. *)
Theorem X4_reported_phase_is_used
        (str_float : Q -> string) (dados : list Candle) (self : E.engine) :
  dados <> [] ->
  let r := E.alimentar_dados str_float dados self in
  E.fase_detectada (snd r) = Some (E.fase_alimentada (fst r))
  /\ (E.fase_alimentada (fst r) = 2%Z ->
      E.chave_ativa_fase1 (snd r) = E.chave_ativa_fase1 self)
  /\ forall (ops : list E.operacao) (agora : string) (a mx mn : pyval)
            (p : E.Predicao),
      fst (E.fazer_predicao agora a mx mn (E.executar_todas ops (snd r)))
      = Ret (E.Sucesso p) ->
      E.fase_usada p = E.fase_alimentada (fst r).
Proof.
  intros Hne r. subst r.
  destruct (detectar_fase_nonempty dados self Hne) as (fase & Hd & Hf12 & _).
  assert (Hstate : E.fase_detectada (snd (E.alimentar_dados str_float dados self))
                   = Some (E.fase_alimentada (fst (E.alimentar_dados str_float dados self)))
                   /\ E.fase_alimentada (fst (E.alimentar_dados str_float dados self))
                      = fase).
  { unfold E.alimentar_dados. rewrite Hd.
    destruct (fase =? 1)%Z; [|simpl; auto].
    destruct (E.descobrir_chave_fase1 str_float dados (E.set_fase self (Some fase)))
      as [k e] eqn:Hk. simpl.
    pose proof (descobrir_chave_estado str_float dados (E.set_fase self (Some fase)))
      as Hs.
    rewrite Hk in Hs. simpl in Hs.
    destruct Hs as [->|[k' ->]]; simpl; auto. }
  destruct Hstate as [Hs Hr]. split; [exact Hs|]. split.
  - intro H2. rewrite Hr in H2.
    unfold E.alimentar_dados. rewrite Hd, H2. reflexivity.
  - intros ops agora a mx mn p Hp.
    apply fazer_predicao_fase_usada in Hp. rewrite Hp.
    unfold E.fase_ou_2.
    destruct (executar_todas_fase ops (snd (E.alimentar_dados str_float dados self)))
      as [Hfa _].
    rewrite Hfa, Hs, Hr. destruct Hf12 as [->| ->]; reflexivity.
Qed.

Lemma X4_reported_phase_is_used_witness :
  let r := E.alimentar_dados (fun _ => "1.2"%string) amostra_cinco_verdes E.init in
  E.fase_detectada (snd r) = Some (E.fase_alimentada (fst r))
  /\ (E.fase_alimentada (fst r) = 2%Z ->
      E.chave_ativa_fase1 (snd r) = E.chave_ativa_fase1 E.init)
  /\ forall (ops : list E.operacao) (agora : string) (a mx mn : pyval)
            (p : E.Predicao),
      fst (E.fazer_predicao agora a mx mn (E.executar_todas ops (snd r)))
      = Ret (E.Sucesso p) ->
      E.fase_usada p = E.fase_alimentada (fst r).
Proof.
  apply (X4_reported_phase_is_used (fun _ => "1.2"%string) amostra_cinco_verdes E.init).
  discriminate.
Defined.

Lemma last_item_app {X : Type} (l : list X) (x : X) : last_item (l ++ [x]) = Some x.
Proof.
  induction l as [|y l IH]; simpl; [reflexivity|].
  destruct (l ++ [x]) eqn:Hl; [destruct l; discriminate|exact IH].
Qed.

(** A call with three numbers succeeds and appends what it returns. *)
Lemma fazer_predicao_numeric agora o h l self :
  exists p,
    E.fazer_predicao agora (Numeric o) (Numeric h) (Numeric l) self
    = (Ret (E.Sucesso p), E.append_historico self p)
    /\ E.timestamp p = agora
    /\ E.abertura_usada p = o /\ E.maxima_usada p = h /\ E.minima_usada p = l
    /\ (E.cor_predita p = "Verde"%string /\ E.posicao p = "CALL"%string
        \/ E.cor_predita p = "Vermelho"%string /\ E.posicao p = "PUT"%string).
Proof.
  unfold E.fazer_predicao. simpl.
  destruct (E.fase_ou_2 self =? 1)%Z.
  - unfold E.predizer_fase1. simpl.
    destruct (match E.chave_ativa_fase1 self with
              | Some k => E.funcoes_predicao k | None => None end) as [f|]; simpl;
      match goal with |- context [Qgtb ?x o] => destruct (Qgtb x o) end;
      eexists; repeat split; auto.
  - unfold E.algoritmo_fibonacci_amplitude. simpl.
    destruct (Qltb o ((h + l) / 2)); simpl;
      match goal with |- context [Qgtb ?x o] => destruct (Qgtb x o) end;
      eexists; repeat split; auto.
Qed.

(** X5: a confirmation that follows a prediction is about that
    prediction: with a numeric close and a non-negative counter it
    succeeds, reports the prediction's close and colour, counts a hit
    exactly when "close above the open used" agrees with "predicted
    Verde", and adds one to the counter. *)
Theorem X5_confirmation_follows_prediction
        (agora : string) (o h l real : Q) (self : E.engine) :
  (0 <= E.total_predicoes (E.estatisticas self))%Z ->
  exists p c,
    fst (E.fazer_predicao agora (Numeric o) (Numeric h) (Numeric l) self)
    = Ret (E.Sucesso p)
    /\ fst (E.confirmar_resultado (Numeric real)
              (snd (E.fazer_predicao agora (Numeric o) (Numeric h) (Numeric l) self)))
       = E.Confirmado c
    /\ E.fechamento_predito_conf c = E.fechamento_predito p
    /\ E.cor_predita_conf c = E.cor_predita p
    /\ (E.acerto_cor c = true <-> (o < real <-> E.cor_predita p = "Verde"%string))
    /\ E.total_predicoes
         (E.estatisticas
            (snd (E.confirmar_resultado (Numeric real)
                    (snd (E.fazer_predicao agora (Numeric o) (Numeric h) (Numeric l)
                            self)))))
       = (E.total_predicoes (E.estatisticas self) + 1)%Z.
Proof.
  intro Htot.
  destruct (fazer_predicao_numeric agora o h l self)
    as (p & Hp & _ & Ho & _ & _ & Hcor).
  rewrite Hp. simpl fst. simpl snd.
  unfold E.confirmar_resultado. simpl E.historico_predicoes.
  rewrite last_item_app. simpl Py.float. cbv iota beta.
  simpl E.estatisticas.
  destruct (E.total_predicoes (E.estatisticas self) + 1 =? 0)%Z eqn:Hz;
    [apply Z.eqb_eq in Hz; lia|].
  exists p. eexists. split; [reflexivity|]. split; [reflexivity|].
  simpl. split; [reflexivity|]. split; [reflexivity|]. split; [|reflexivity].
  rewrite Ho. destruct (Qgtb real o) eqn:Hg; order_facts;
    destruct Hcor as [[Hc _]|[Hc _]]; rewrite Hc; simpl.
  - split; intros; [split; auto | reflexivity].
  - split; [discriminate | intros [H _]; specialize (H Hg); discriminate].
  - split; [discriminate|].
    intros [_ H]. exfalso. apply (Qlt_not_le _ _ (H eq_refl) Hg).
  - split; [|reflexivity]. intros _. split; intro H; [|discriminate].
    exfalso. apply (Qlt_not_le _ _ H Hg).
Qed.

Lemma X5_confirmation_follows_prediction_witness :
  exists p c,
    fst (E.fazer_predicao "2025-12-10T03:00:00" (Numeric 9400) (Numeric 9420)
           (Numeric 9390) E.init)
    = Ret (E.Sucesso p)
    /\ fst (E.confirmar_resultado (Numeric 9410)
              (snd (E.fazer_predicao "2025-12-10T03:00:00" (Numeric 9400)
                      (Numeric 9420) (Numeric 9390) E.init)))
       = E.Confirmado c
    /\ E.fechamento_predito_conf c = E.fechamento_predito p
    /\ E.cor_predita_conf c = E.cor_predita p
    /\ (E.acerto_cor c = true <-> (9400 < 9410 <-> E.cor_predita p = "Verde"%string))
    /\ E.total_predicoes
         (E.estatisticas
            (snd (E.confirmar_resultado (Numeric 9410)
                    (snd (E.fazer_predicao "2025-12-10T03:00:00" (Numeric 9400)
                            (Numeric 9420) (Numeric 9390) E.init)))))
       = (E.total_predicoes (E.estatisticas E.init) + 1)%Z.
Proof.
  apply (X5_confirmation_follows_prediction "2025-12-10T03:00:00"
           9400 9420 9390 9410 E.init).
  simpl. lia.
Defined.

(** X6: what [fazer_predicao] does with an argument [float()] rejects.  A
    bad high or low (the open being a number) is contained: the handler's
    dict comes back with the open as [fechamento_predito], "Erro" and
    "NENHUMA", and the instance is untouched.  A bad open is not contained:
    the handler converts it again and the call raises. *)
Theorem X6_bad_arguments
        (agora : string) (self : E.engine) (msg : string) :
  (forall (o : Q) (mx mn : pyval),
      Py.float mx = Raise msg
      \/ (exists h, mx = Numeric h) /\ Py.float mn = Raise msg ->
      E.fazer_predicao agora (Numeric o) mx mn self
      = (Ret (E.Erro msg o "Erro" "NENHUMA"), self))
  /\ (forall mx mn : pyval,
         E.fazer_predicao agora (Malformed msg) mx mn self = (Raise msg, self)).
Proof.
  split.
  - intros o mx mn [H|[[h ->] H]]; unfold E.fazer_predicao; simpl.
    + rewrite H. reflexivity.
    + rewrite H. reflexivity.
  - intros mx mn. reflexivity.
Qed.

Lemma X6_bad_arguments_witness :
  E.fazer_predicao "2025-12-10T03:00:00" (Numeric 9400) (Numeric 9420)
    (Malformed "could not convert string to float: 'n/a'") E.init
  = (Ret (E.Erro "could not convert string to float: 'n/a'" 9400 "Erro" "NENHUMA"),
     E.init).
Proof.
  apply (proj1 (X6_bad_arguments "2025-12-10T03:00:00" E.init
                  "could not convert string to float: 'n/a'")).
  right. split; [exists 9420; reflexivity|reflexivity].
Defined.

Lemma executar_historico_coerente (self : E.engine) (op : E.operacao) :
  Forall entrada_coerente (E.historico_predicoes self) ->
  Forall entrada_coerente (E.historico_predicoes (E.executar self op)).
Proof.
  intro H. destruct op as [agora a mx mn|r]; simpl.
  - destruct a as [o|m]; [|exact H].
    destruct mx as [h|m]; [|exact H].
    destruct mn as [l|m]; [|exact H].
    destruct (fazer_predicao_numeric agora o h l self) as (p & Hp & _ & _ & _ & _ & Hc).
    rewrite Hp. simpl. apply Forall_app. split; [exact H|].
    constructor; [exact Hc|constructor].
  - destruct (confirmar_resultado_estado r self) as [->|[s ->]]; exact H.
Qed.

Lemma executar_todas_historico_coerente (ops : list E.operacao) : forall self,
  Forall entrada_coerente (E.historico_predicoes self) ->
  Forall entrada_coerente (E.historico_predicoes (E.executar_todas ops self)).
Proof.
  unfold E.executar_todas.
  induction ops as [|op ops IH]; intros self H; simpl; [exact H|].
  apply IH. now apply executar_historico_coerente.
Qed.

(** X7: every prediction an instance has stored, after any run of
    predictions and confirmations from a fresh instance, is either
    (Verde, CALL) or (Vermelho, PUT); and [calcular_gatilho_entrada] on it
    gives the direction of its position, with the trigger below the
    predicted close for CALL and above it for PUT by the offset, rounded to
    4 places. *)
Theorem X7_stored_predictions_coherent
        (ops : list E.operacao) (p : E.Predicao) (pontos_offset : Z) :
  In p (E.historico_predicoes (E.executar_todas ops E.init)) ->
  entrada_coerente p
  /\ E.direcao (E.calcular_gatilho_entrada p pontos_offset) = E.posicao p
  /\ (E.posicao p = "CALL"%string ->
      E.gatilho (E.calcular_gatilho_entrada p pontos_offset)
      = Py.round (E.fechamento_predito p - inject_Z pontos_offset) 4)
  /\ (E.posicao p = "PUT"%string ->
      E.gatilho (E.calcular_gatilho_entrada p pontos_offset)
      = Py.round (E.fechamento_predito p + inject_Z pontos_offset) 4).
Proof.
  intro Hin.
  assert (Hc : entrada_coerente p).
  { pose proof (executar_todas_historico_coerente ops E.init (Forall_nil _)) as HF.
    rewrite Forall_forall in HF. now apply HF. }
  split; [exact Hc|].
  unfold E.calcular_gatilho_entrada. simpl.
  destruct Hc as [[Hcor Hpos]|[Hcor Hpos]]; rewrite Hcor, Hpos; simpl;
    repeat split; intro H; try reflexivity; discriminate H.
Qed.

Lemma X7_stored_predictions_coherent_witness :
  exists p,
    In p (E.historico_predicoes
            (E.executar_todas
               [E.OpPredicao "2025-12-10T03:00:00" (Numeric 9400) (Numeric 9420)
                  (Numeric 9390)] E.init))
    /\ entrada_coerente p
    /\ E.direcao (E.calcular_gatilho_entrada p 16) = E.posicao p.
Proof.
  eexists. split; [left; reflexivity|].
  split; eapply (X7_stored_predictions_coherent
                   [E.OpPredicao "2025-12-10T03:00:00" (Numeric 9400) (Numeric 9420)
                      (Numeric 9390)] _ 16);
    left; reflexivity.
Defined.

Lemma confirmar_estat_coerente (r : pyval) (self : E.engine) :
  estat_coerente (E.estatisticas self) ->
  estat_coerente (E.estatisticas (snd (E.confirmar_resultado r self))).
Proof.
  intros (Hza & Hass & Hb). unfold E.confirmar_resultado.
  destruct (last_item (E.historico_predicoes self)) as [u|]; simpl;
    [|repeat split; tauto].
  destruct (Py.float r) as [x|e]; simpl; [|repeat split; tauto].
  set (acerto := ((if Qgtb x (E.abertura_usada u) then "Verde" else "Vermelho")
                  =? E.cor_predita u)%string).
  set (t := E.total_predicoes (E.estatisticas self)) in *.
  set (a := E.acertos (E.estatisticas self)) in *.
  destruct (t + 1 =? 0)%Z eqn:Hz; [apply Z.eqb_eq in Hz; lia|].
  simpl.
  assert (Ha' : (0 <= (if acerto then a + 1 else a) <= t + 1)%Z)
    by (destruct acerto; lia).
  set (a' := if acerto then (a + 1)%Z else a) in *.
  assert (Ht : 0 < inject_Z (t + 1)) by (rewrite <- (Zlt_Qlt 0); lia).
  assert (H0 : 0 <= inject_Z a' / inject_Z (t + 1)).
  { apply Qle_shift_div_l; [exact Ht|]. rewrite Qmult_0_l.
    rewrite <- (Zle_Qle 0). lia. }
  assert (H1 : inject_Z a' / inject_Z (t + 1) <= 1).
  { apply Qle_shift_div_r; [exact Ht|]. rewrite Qmult_1_l.
    rewrite <- Zle_Qle. lia. }
  split; [exact Ha'|]. split; [intros _; reflexivity|].
  set (q := inject_Z a' / inject_Z (t + 1)) in *. clearbody q.
  cbn [E.assertividade]. split; lra.
Qed.

Lemma executar_estat_coerente (self : E.engine) (op : E.operacao) :
  estat_coerente (E.estatisticas self) ->
  estat_coerente (E.estatisticas (E.executar self op)).
Proof.
  intro H. destruct op as [agora a mx mn|r]; simpl.
  - destruct (fazer_predicao_estado agora a mx mn self) as [->|[p ->]]; exact H.
  - now apply confirmar_estat_coerente.
Qed.

(** X10: the running statistics always add up.  After any run of
    predictions and confirmations from a fresh instance, the hits are
    between 0 and the number of confirmations counted, the accuracy is
    between 0 and 100, and once something was counted it is exactly
    100 * hits / counted. *)
Theorem X10_statistics_coherent (ops : list E.operacao) :
  let s := E.estatisticas (E.executar_todas ops E.init) in
  (0 <= E.acertos s <= E.total_predicoes s)%Z
  /\ ((0 < E.total_predicoes s)%Z ->
      E.assertividade s
      == inject_Z (E.acertos s) / inject_Z (E.total_predicoes s) * 100)
  /\ 0 <= E.assertividade s <= 100.
Proof.
  assert (H : forall self, estat_coerente (E.estatisticas self) ->
                           estat_coerente (E.estatisticas (E.executar_todas ops self))).
  { unfold E.executar_todas. induction ops as [|op ops IH]; intros self Hs; simpl;
      [exact Hs|]. apply IH. now apply executar_estat_coerente. }
  apply (H E.init). unfold estat_coerente. simpl.
  split; [lia|]. split; [intro H0; lia|]. split; discriminate.
Qed.

Lemma X10_statistics_coherent_witness :
  let s := E.estatisticas
             (E.executar_todas
                [E.OpPredicao "2025-12-10T03:00:00" (Numeric 9400) (Numeric 9420)
                   (Numeric 9390);
                 E.OpConfirmacao (Numeric 9410)] E.init) in
  (0 < E.total_predicoes s)%Z
  /\ E.assertividade s
     == inject_Z (E.acertos s) / inject_Z (E.total_predicoes s) * 100.
Proof.
  split; [reflexivity|].
  apply (proj1 (proj2 (X10_statistics_coherent
           [E.OpPredicao "2025-12-10T03:00:00" (Numeric 9400) (Numeric 9420)
              (Numeric 9390);
            E.OpConfirmacao (Numeric 9410)]))).
  reflexivity.
Defined.

Lemma executar_contagem (self : E.engine) (op : E.operacao) :
  length (E.historico_predicoes (E.executar self op))
  = (length (E.historico_predicoes self) + (if predicao_valida op then 1 else 0))%nat
  /\ (E.total_predicoes (E.estatisticas self)
      <= E.total_predicoes (E.estatisticas (E.executar self op))
      <= E.total_predicoes (E.estatisticas self)
         + (if e_confirmacao op then 1 else 0))%Z.
Proof.
  destruct op as [agora a mx mn|r]; simpl.
  - destruct a as [o|m]; [|simpl; split; lia].
    destruct mx as [h|m]; [|simpl; split; lia].
    destruct mn as [l|m]; [|simpl; split; lia].
    destruct (fazer_predicao_numeric agora o h l self) as (p & Hp & _).
    rewrite Hp. simpl. rewrite length_app. simpl. split; lia.
  - unfold E.confirmar_resultado.
    destruct (last_item (E.historico_predicoes self)); simpl; [|split; lia].
    destruct (Py.float r); simpl; [|split; lia].
    match goal with |- context [if ?b then _ else _] => destruct b end;
      simpl; split; lia.
Qed.

(** X11: what the two counters of [obter_estatisticas] count.  After any
    run of calls from a fresh instance, [total_historico] is the number of
    prediction calls whose three arguments converted, and
    [total_predicoes] is at most the number of confirmation calls: it
    counts confirmations, not predictions. *)
Theorem X11_counters (ops : list E.operacao) :
  let r := E.obter_estatisticas (E.executar_todas ops E.init) in
  E.total_historico r = length (filter predicao_valida ops)
  /\ (0 <= E.est_total_predicoes r <= Z.of_nat (length (filter e_confirmacao ops)))%Z.
Proof.
  assert (H : forall self,
             length (E.historico_predicoes (E.executar_todas ops self))
             = (length (E.historico_predicoes self)
                + length (filter predicao_valida ops))%nat
             /\ (E.total_predicoes (E.estatisticas self)
                 <= E.total_predicoes (E.estatisticas (E.executar_todas ops self))
                 <= E.total_predicoes (E.estatisticas self)
                    + Z.of_nat (length (filter e_confirmacao ops)))%Z).
  { unfold E.executar_todas. induction ops as [|op ops IH]; intro self; simpl.
    - split; lia.
    - destruct (IH (E.executar self op)) as [IH1 IH2].
      destruct (executar_contagem self op) as [H1 H2].
      destruct (predicao_valida op), (e_confirmacao op); simpl; split; lia. }
  destruct (H E.init) as [H1 H2]. simpl in *. split; [exact H1|lia].
Qed.

(** * The REST front *)

Lemma tf_suportado (t : string) :
  negb ((t =? "M15")%string || (t =? "M30")%string) = false
  <-> (t = "M15"%string \/ t = "M30"%string).
Proof.
  rewrite negb_false_iff, orb_true_iff, !String.eqb_eq. tauto.
Qed.

(** A request that fails a check of [predict] is answered 400, and a 400
    leaves the server as it was. *)
Lemma predict_400 (str_float : Q -> string) (agora : string)
      (data : option S.Pedido) (srv : S.servidor) :
  (data = None \/ (exists d, data = Some d /\ ~ pedido_valido d) ->
   e_400 (fst (S.predict str_float agora data srv)))
  /\ (e_400 (fst (S.predict str_float agora data srv)) ->
      snd (S.predict str_float agora data srv) = srv).
Proof.
  unfold S.predict, pedido_valido.
  destruct data as [d|]; [|simpl; auto].
  destruct (S.symbol d) as [sy|] eqn:Hsy; [|simpl; auto].
  destruct (S.tf d) as [t|] eqn:Htf; [|simpl; auto].
  destruct (S.history d) as [hi|] eqn:Hhi; [|simpl; auto].
  destruct (S.partial_current d) as [pa|] eqn:Hpa; [|simpl; auto].
  destruct (negb ((t =? "M15")%string || (t =? "M30")%string)) eqn:Ht;
    [simpl; auto|].
  apply tf_suportado in Ht.
  match goal with
  | |- (_ -> e_400 (fst ?r)) /\ _ => assert (Hno : ~ e_400 (fst r))
  end.
  { cbv zeta.
    destruct (abertura_ <- S.float_item "abertura" (S.p_abertura pa) ;;
              minima_ <- S.float_item "minima_parcial" (S.p_minima_parcial pa) ;;
              maxima_ <- S.float_item "maxima_parcial" (S.p_maxima_parcial pa) ;;
              Ret (abertura_, minima_, maxima_)) as [[[a mn] mx]|e];
      [|simpl; auto].
    destruct (E.fazer_predicao _ _ _ _ _) as [[[p|? ? ? ?]|msg] e]; simpl; auto. }
  split; [|intro H; contradiction].
  intros [H|(d' & Hd & Hinv)]; [discriminate|].
  injection Hd as <-. exfalso. apply Hinv.
  repeat split; try congruence.
  destruct Ht as [->| ->]; auto.
Qed.

(** X12: the requests [predict] turns away.  When reading the JSON body
    raises (the request carries none, or it does not parse) the answer is
    500 with the exception's text.  When the body is a falsy value, or an
    object that lacks one of symbol, tf, history, partial_current or names
    a timeframe other than M15 and M30, the answer is 400.  That 500 and
    every 400 leave the engine and its initialisation flag as they
    were. *)
Theorem X12_predict_400 (str_float : Q -> string) (agora : string)
        (request_json : exc (option S.Pedido)) (srv : S.servidor) :
  (forall e, request_json = Raise e ->
             S.predict_request str_float agora request_json srv
             = (S.Resposta500 e "Erro ao processar predição", srv))
  /\ (request_json = Ret None
      \/ (exists d, request_json = Ret (Some d) /\ ~ pedido_valido d) ->
      e_400 (fst (S.predict_request str_float agora request_json srv)))
  /\ (e_400 (fst (S.predict_request str_float agora request_json srv)) ->
      snd (S.predict_request str_float agora request_json srv) = srv).
Proof.
  destruct request_json as [data|e0]; simpl.
  - destruct (predict_400 str_float agora data srv) as [H1 H2].
    split; [intros e H; discriminate|]. split; [|exact H2].
    intros [H|(d & Hd & Hinv)]; apply H1.
    + left. congruence.
    + right. exists d. split; [congruence|exact Hinv].
  - split; [intros e H; injection H as <-; reflexivity|].
    split; [|intro H; contradiction].
    intros [H|(d & Hd & _)]; discriminate.
Qed.

Lemma X12_predict_400_witness :
  S.predict_request (fun _ => "9400.0"%string) "2025-12-10T03:00:00"
    (Raise "415 Unsupported Media Type") S.inicial
  = (S.Resposta500 "415 Unsupported Media Type" "Erro ao processar predição", S.inicial)
  /\ e_400 (fst (S.predict_request (fun _ => "9400.0"%string) "2025-12-10T03:00:00"
                   (Ret (Some (S.mkPedido (Some "R_100"%string) (Some "M60"%string)
                                 (Some []) (Some (S.mkParcial None None None)))))
                   S.inicial))
  /\ snd (S.predict_request (fun _ => "9400.0"%string) "2025-12-10T03:00:00"
            (Ret (Some (S.mkPedido (Some "R_100"%string) (Some "M60"%string)
                          (Some []) (Some (S.mkParcial None None None)))))
            S.inicial)
     = S.inicial.
Proof.
  split; [|split].
  - apply (proj1 (X12_predict_400 (fun _ => "9400.0"%string) "2025-12-10T03:00:00"
                    (Raise "415 Unsupported Media Type") S.inicial)).
    reflexivity.
  - apply (proj1 (proj2 (X12_predict_400 (fun _ => "9400.0"%string)
                           "2025-12-10T03:00:00"
                           (Ret (Some (S.mkPedido (Some "R_100"%string)
                                         (Some "M60"%string) (Some [])
                                         (Some (S.mkParcial None None None)))))
                           S.inicial))).
    right. eexists. split; [reflexivity|].
    intros (_ & _ & _ & [H|H]); discriminate H.
  - apply (proj2 (proj2 (X12_predict_400 (fun _ => "9400.0"%string)
                           "2025-12-10T03:00:00"
                           (Ret (Some (S.mkPedido (Some "R_100"%string)
                                         (Some "M60"%string) (Some [])
                                         (Some (S.mkParcial None None None)))))
                           S.inicial))).
    simpl. exact I.
Defined.

(** X13: one engine serves every symbol.  Once the server is initialised,
    two valid requests with the same partial candle get the same response
    and leave the same state, whatever symbol, timeframe and history each
    one carries: the history of a later request is never read. *)
Theorem X13_later_history_ignored (str_float : Q -> string) (agora : string)
        (d1 d2 : S.Pedido) (srv : S.servidor) :
  S.engine_initialized srv = true ->
  pedido_valido d1 -> pedido_valido d2 ->
  S.partial_current d1 = S.partial_current d2 ->
  S.predict str_float agora (Some d1) srv = S.predict str_float agora (Some d2) srv.
Proof.
  intros Hini (Hs1 & Hh1 & Hp1 & Ht1) (Hs2 & Hh2 & Hp2 & Ht2) Hpar.
  unfold S.predict. rewrite Hini, <- Hpar.
  destruct (S.symbol d1); [|congruence].
  destruct (S.symbol d2); [|congruence].
  destruct (S.history d1); [|congruence].
  destruct (S.history d2); [|congruence].
  destruct (S.partial_current d1) as [pa|]; [|congruence].
  assert (H1 : exists t1, S.tf d1 = Some t1
                          /\ negb ((t1 =? "M15")%string || (t1 =? "M30")%string) = false).
  { destruct Ht1 as [H|H]; rewrite H; eexists; split; reflexivity. }
  assert (H2 : exists t2, S.tf d2 = Some t2
                          /\ negb ((t2 =? "M15")%string || (t2 =? "M30")%string) = false).
  { destruct Ht2 as [H|H]; rewrite H; eexists; split; reflexivity. }
  destruct H1 as (t1 & -> & ->). destruct H2 as (t2 & -> & ->).
  reflexivity.
Qed.

Lemma X13_later_history_ignored_witness :
  let primeiro := S.mkPedido (Some "R_100"%string) (Some "M15"%string)
                    (Some [mkCandle (Some 9400) (Some 9420) (Some 9390) (Some 9410)])
                    (Some (S.mkParcial (Some (Numeric 9410)) (Some (Numeric 9400))
                             (Some (Numeric 9430)))) in
  let srv := snd (S.predict (fun _ => "9400.0"%string) "2025-12-10T03:00:00"
                    (Some primeiro) S.inicial) in
  let parcial := Some (S.mkParcial (Some (Numeric 1.2)) (Some (Numeric 1.1))
                         (Some (Numeric 1.4))) in
  S.predict (fun _ => "1.2"%string) "2025-12-10T03:15:00"
    (Some (S.mkPedido (Some "frxEURUSD"%string) (Some "M30"%string)
             (Some amostra_cinco_verdes) parcial)) srv
  = S.predict (fun _ => "1.2"%string) "2025-12-10T03:15:00"
      (Some (S.mkPedido (Some "R_100"%string) (Some "M15"%string) (Some []) parcial))
      srv.
Proof.
  apply X13_later_history_ignored.
  - reflexivity.
  - repeat split; try discriminate. right. reflexivity.
  - repeat split; try discriminate. left. reflexivity.
  - reflexivity.
Defined.

(** An initialised server stays initialised and keeps the phase and the
    key of its engine, whatever the request. *)
Lemma predict_inicializado (sf : Q -> string) (agora : string)
      (data : option S.Pedido) (srv : S.servidor) :
  S.engine_initialized srv = true ->
  S.engine_initialized (snd (S.predict sf agora data srv)) = true
  /\ E.fase_detectada (S.engine (snd (S.predict sf agora data srv)))
     = E.fase_detectada (S.engine srv)
  /\ E.chave_ativa_fase1 (S.engine (snd (S.predict sf agora data srv)))
     = E.chave_ativa_fase1 (S.engine srv).
Proof.
  intro Hini. unfold S.predict. rewrite Hini.
  destruct data as [d|]; [|simpl; auto].
  destruct (S.symbol d); [|simpl; auto].
  destruct (S.tf d); [|simpl; auto].
  destruct (S.history d); [|simpl; auto].
  destruct (S.partial_current d) as [pa|]; [|simpl; auto].
  destruct (negb _); [simpl; auto|].
  destruct (abertura_ <- S.float_item "abertura" (S.p_abertura pa) ;; _)
    as [[[a mn] mx]|e]; [|simpl; auto].
  pose proof (fazer_predicao_estado agora (Numeric a) (Numeric mx) (Numeric mn)
                (S.engine srv)) as Hst.
  destruct (E.fazer_predicao agora (Numeric a) (Numeric mx) (Numeric mn) (S.engine srv))
    as [[[p|? ? ? ?]|msg] e]; simpl in *;
    destruct Hst as [->|[q ->]]; simpl; auto.
Qed.

(** A valid request on a server not yet initialised feeds the engine with
    its history and sets the flag. *)
Lemma predict_inicializa
      (str_float : Q -> string) (agora : string) (d : S.Pedido)
      (history_ : list Candle) (srv : S.servidor) :
  pedido_valido d -> S.history d = Some history_ ->
  S.engine_initialized srv = false ->
  let srv' := snd (S.predict str_float agora (Some d) srv) in
  let alimentada := snd (E.alimentar_dados str_float history_ (S.engine srv)) in
  S.engine_initialized srv' = true
  /\ E.fase_detectada (S.engine srv') = E.fase_detectada alimentada
  /\ E.chave_ativa_fase1 (S.engine srv') = E.chave_ativa_fase1 alimentada.
Proof.
  intros (Hs & Hh & Hp & Ht) Hhi Hini. simpl.
  unfold S.predict. rewrite Hini, Hhi.
  destruct (S.symbol d); [|congruence].
  destruct (S.partial_current d) as [pa|]; [|congruence].
  assert (H1 : exists t1, S.tf d = Some t1
                          /\ negb ((t1 =? "M15")%string || (t1 =? "M30")%string) = false).
  { destruct Ht as [H|H]; rewrite H; eexists; split; reflexivity. }
  destruct H1 as (t1 & -> & ->).
  assert (Hsuc : E.sucesso (fst (E.alimentar_dados str_float history_ (S.engine srv)))
                 = true).
  { unfold E.alimentar_dados.
    destruct (E.detectar_fase history_ (S.engine srv)) as [f e1].
    destruct (f =? 1)%Z; [|reflexivity].
    destruct (E.descobrir_chave_fase1 str_float history_ e1). reflexivity. }
  destruct (E.alimentar_dados str_float history_ (S.engine srv)) as [res e0].
  simpl in Hsuc. rewrite Hsuc. simpl.
  destruct (abertura_ <- S.float_item "abertura" (S.p_abertura pa) ;; _)
    as [[[a mn] mx]|e]; [|simpl; auto].
  pose proof (fazer_predicao_estado agora (Numeric a) (Numeric mx) (Numeric mn) e0)
    as Hst.
  destruct (E.fazer_predicao agora (Numeric a) (Numeric mx) (Numeric mn) e0)
    as [[[p|? ? ? ?]|msg] e]; simpl in *;
    destruct Hst as [->|[q ->]]; simpl; auto.
Qed.

Lemma servir_inicializado (sf : Q -> string) (pedidos : list (string * option S.Pedido)) :
  forall srv,
    S.engine_initialized srv = true ->
    S.engine_initialized (servir sf pedidos srv) = true
    /\ E.fase_detectada (S.engine (servir sf pedidos srv))
       = E.fase_detectada (S.engine srv).
Proof.
  unfold servir. induction pedidos as [|[agora data] pedidos IH]; intros srv Hini;
    simpl; [auto|].
  destruct (predict_inicializado sf agora data srv Hini) as (H1 & H2 & _).
  destruct (IH _ H1) as [H3 H4]. split; [exact H3|congruence].
Qed.

(** X15: a first request with an empty history locks a fresh server into
    Phase 2.  It passes validation, so the server counts as initialised
    with no phase detected; from then on every 200 response, to any
    request with any history, names "Fibonacci da Amplitude" as phase and
    strategy. *)
Theorem X15_empty_first_history_locks_fibonacci
        (str_float : Q -> string) (agora0 agora : string) (d0 : S.Pedido)
        (pedidos : list (string * option S.Pedido)) (data : option S.Pedido) :
  pedido_valido d0 -> S.history d0 = Some [] ->
  let srv := servir str_float pedidos
               (snd (S.predict str_float agora0 (Some d0) S.inicial)) in
  forall c dir phase strat conf,
    fst (S.predict str_float agora data srv) = S.Resposta200 c dir phase strat conf ->
    phase = "Fibonacci da Amplitude"%string
    /\ strat = "Fibonacci da Amplitude"%string.
Proof.
  intros Hval Hhi srv c dir phase strat conf.
  destruct (predict_inicializa str_float agora0 d0 [] S.inicial Hval Hhi eq_refl)
    as (Hini & Hfase & _).
  assert (Hnone : E.fase_detectada
                    (snd (E.alimentar_dados str_float [] (S.engine S.inicial))) = None)
    by reflexivity.
  rewrite Hnone in Hfase. clear Hnone.
  destruct (servir_inicializado str_float pedidos _ Hini) as [Hini' Hfase'].
  fold srv in Hini', Hfase'. rewrite Hfase in Hfase'. clearbody srv.
  unfold S.predict. rewrite Hini'.
  destruct data as [d|]; [|discriminate].
  destruct (S.symbol d); [|discriminate].
  destruct (S.tf d); [|discriminate].
  destruct (S.history d); [|discriminate].
  destruct (S.partial_current d) as [pa|]; [|discriminate].
  destruct (negb _); [discriminate|].
  destruct (abertura_ <- S.float_item "abertura" (S.p_abertura pa) ;; _)
    as [[[a mn] mx]|e]; [|discriminate].
  unfold E.fazer_predicao, E.fase_ou_2. rewrite Hfase'. simpl.
  unfold E.algoritmo_fibonacci_amplitude. simpl.
  destruct (Qltb a ((mx + mn) / 2)); simpl; intro H; injection H as _ _ <- <- _;
    auto.
Qed.

Lemma X15_empty_first_history_locks_fibonacci_witness :
  let d0 := S.mkPedido (Some "frxEURUSD"%string) (Some "M15"%string) (Some [])
              (Some (S.mkParcial (Some (Numeric 1.2)) (Some (Numeric 1.1))
                       (Some (Numeric 1.4)))) in
  let d := S.mkPedido (Some "frxEURUSD"%string) (Some "M15"%string)
             (Some amostra_cinco_verdes)
             (Some (S.mkParcial (Some (Numeric 1.2)) (Some (Numeric 1.1))
                      (Some (Numeric 1.4)))) in
  exists c dir phase strat conf,
    fst (S.predict (fun _ => "1.2"%string) "2025-12-10T03:15:00" (Some d)
           (servir (fun _ => "1.2"%string) []
              (snd (S.predict (fun _ => "1.2"%string) "2025-12-10T03:00:00"
                      (Some d0) S.inicial))))
    = S.Resposta200 c dir phase strat conf
    /\ phase = "Fibonacci da Amplitude"%string
    /\ strat = "Fibonacci da Amplitude"%string.
Proof.
  do 5 eexists. split; [vm_compute; reflexivity|].
  eapply (X15_empty_first_history_locks_fibonacci (fun _ => "1.2"%string)
            "2025-12-10T03:00:00" "2025-12-10T03:15:00"
            (S.mkPedido (Some "frxEURUSD"%string) (Some "M15"%string) (Some [])
               (Some (S.mkParcial (Some (Numeric 1.2)) (Some (Numeric 1.1))
                        (Some (Numeric 1.4))))) []
            (Some (S.mkPedido (Some "frxEURUSD"%string) (Some "M15"%string)
                     (Some amostra_cinco_verdes)
                     (Some (S.mkParcial (Some (Numeric 1.2)) (Some (Numeric 1.1))
                              (Some (Numeric 1.4))))))).
  - repeat split; try discriminate. left. reflexivity.
  - reflexivity.
  - vm_compute. reflexivity.
Defined.

(** * Further properties of the amplitude predictor *)

Lemma collect_amplitudes_ok (cs : list Candle) :
  Forall tem_limites cs ->
  A.collect_amplitudes cs = Ret (filter (fun a => Qgtb a 0) (map amplitude cs)).
Proof.
  induction 1 as [|c cs [Hmx Hmn] _ IH]; [reflexivity|].
  destruct c as [ab [mx|] [mn|] fe]; simpl in *; try congruence.
  rewrite IH. simpl. unfold amplitude at 1 3. simpl.
  destruct (Qgtb (mx - mn) 0); reflexivity.
Qed.

Lemma collect_amplitudes_raise (cs : list Candle) :
  ~ Forall tem_limites cs ->
  exists k, A.collect_amplitudes cs = Raise k.
Proof.
  induction cs as [|c cs IH]; intro H; [exfalso; apply H; constructor|].
  simpl. destruct (maxima c) as [mx|] eqn:Hmx; simpl; [|eauto].
  destruct (minima c) as [mn|] eqn:Hmn; simpl; [|eauto].
  destruct IH as (k & Hk).
  - intro HF. apply H. constructor; [|exact HF]. split; congruence.
  - rewrite Hk. simpl. eauto.
Qed.

Lemma init_raise (cs : list Candle) :
  ~ Forall tem_limites cs ->
  exists k, A.init cs = Raise k.
Proof.
  intro H. unfold A.init, A._calculate_statistics. simpl.
  destruct cs as [|c cs]; [exfalso; apply H; constructor|].
  destruct (collect_amplitudes_raise _ H) as (k & Hk).
  rewrite Hk. simpl. eauto.
Qed.

(** X16: no predictor is built from a history in which some candle lacks
    'maxima' or 'minima': the constructor raises, wherever that candle
    stands and whatever the other candles hold. *)
Theorem X16_init_raises_on_missing_bound (cs : list Candle) :
  ~ Forall tem_limites cs ->
  exists k, A.init cs = Raise k.
Proof.
  apply init_raise.
Qed.

Lemma X16_init_raises_on_missing_bound_witness :
  exists k, A.init (amostra_amplitudes ++ [mkCandle None (Some 7) None None]) = Raise k.
Proof.
  apply (X16_init_raises_on_missing_bound
           (amostra_amplitudes ++ [mkCandle None (Some 7) None None])).
  intro H. apply Forall_app in H. destruct H as [_ H].
  apply Forall_inv in H. destruct H as [_ H]. simpl in H. congruence.
Defined.

Lemma fold_right_Qplus_pos (l : list Q) :
  l <> [] -> Forall (fun a => 0 < a) l -> 0 < fold_right Qplus 0 l.
Proof.
  intros Hne HF. induction HF as [|a l Ha HF IH]; [contradiction|].
  simpl. destruct l as [|b l]; [simpl; lra|].
  assert (0 < fold_right Qplus 0 (b :: l)) by (apply IH; discriminate). lra.
Qed.

Lemma media_aritmetica_pos (l : list Q) :
  l <> [] -> Forall (fun a => 0 < a) l -> 0 < media_aritmetica l.
Proof.
  intros Hne HF. unfold media_aritmetica.
  apply Qlt_shift_div_l.
  - rewrite <- (Zlt_Qlt 0). destruct l; [contradiction|simpl; lia].
  - rewrite Qmult_0_l. now apply fold_right_Qplus_pos.
Qed.

(** X17: the statistics a constructed predictor holds.  Candles whose
    amplitude is not positive are left out of the sample.  If none is left
    the mean stays 0 and the percentile table stays empty; otherwise the
    mean is the arithmetic mean of the positive amplitudes, it is positive,
    and the table has exactly the keys 10, 25, 50, 75, 90, 95. *)
Theorem X17_init_statistics (cs : list Candle) (p : A.predictor) :
  A.init cs = Ret p ->
  let amostra := filter (fun a => Qgtb a 0) (map amplitude cs) in
  (amostra = [] -> A.mean_amplitude p = 0 /\ A.amplitude_percentiles p = [])
  /\ (amostra <> [] ->
      A.mean_amplitude p == media_aritmetica amostra
      /\ 0 < A.mean_amplitude p
      /\ A.keys (A.amplitude_percentiles p) = [10; 25; 50; 75; 90; 95]%Z).
Proof.
  intros Hinit amostra.
  assert (HF : Forall tem_limites cs).
  { destruct (Forall_dec tem_limites) with (l := cs) as [HF|HN]; [|exact HF|].
    - intro c. unfold tem_limites.
      destruct (maxima c), (minima c);
        solve [left; split; discriminate
              |right; intros [H1 H2]; congruence].
    - destruct (init_raise cs HN) as (k & Hk). congruence. }
  revert Hinit. unfold A.init, A._calculate_statistics. simpl.
  destruct cs as [|c cs].
  - intro H. injection H as <-. subst amostra. simpl. split; [auto|congruence].
  - rewrite (collect_amplitudes_ok _ HF). fold amostra. simpl.
    destruct amostra as [|x l] eqn:Ham; intro H; injection H as <-; simpl.
    + split; [auto|congruence].
    + split; [discriminate|]. intros _.
      assert (Hpos : Forall (fun a => 0 < a) (x :: l)).
      { rewrite <- Ham. subst amostra. apply Forall_forall. intros a Ha.
        apply filter_In in Ha. destruct Ha as [_ Ha]. now apply Qgtb_true. }
      split; [apply mean_media_aritmetica|]. split; [|reflexivity].
      rewrite mean_media_aritmetica. apply media_aritmetica_pos;
        [discriminate|exact Hpos].
Qed.

Lemma X17_init_statistics_witness :
  exists p, A.init amostra_amplitudes = Ret p
            /\ A.mean_amplitude p == media_aritmetica [1; 2; 3; 4; 5]
            /\ 0 < A.mean_amplitude p.
Proof.
  eexists. split; [vm_compute; reflexivity|].
  match goal with |- A.mean_amplitude ?p == _ /\ _ =>
    destruct (X17_init_statistics amostra_amplitudes p) as [_ H]
  end.
  - vm_compute. reflexivity.
  - destruct H as (H1 & H2 & _); [vm_compute; discriminate|].
    split; [|exact H2]. rewrite H1. vm_compute. reflexivity.
Defined.

(** ** Rounded outputs *)

Lemma round_half_even_bounds (y : Q) (za zb : Z) :
  inject_Z za <= y -> y <= inject_Z zb ->
  (za <= Py.round_half_even y <= zb)%Z.
Proof.
  intros Ha Hb. unfold Py.round_half_even. cbv zeta.
  assert (Hfa : (za <= Qfloor y)%Z).
  { rewrite <- (Qfloor_Z za). now apply Qfloor_resp_le. }
  assert (Hfb : (Qfloor y <= zb)%Z).
  { rewrite <- (Qfloor_Z zb). now apply Qfloor_resp_le. }
  assert (Hup : 0 < y - inject_Z (Qfloor y) -> (Qfloor y + 1 <= zb)%Z).
  { intro Hd. assert (H : (Qfloor y < zb)%Z); [|lia].
    rewrite Zlt_Qlt. lra. }
  destruct (Qltb (y - inject_Z (Qfloor y)) (1 # 2)) eqn:H1; [lia|].
  apply Qltb_false in H1.
  destruct (Qltb (1 # 2) (y - inject_Z (Qfloor y))) eqn:H2.
  - split; [lia|]. apply Hup. lra.
  - destruct (Z.even (Qfloor y)); [lia|]. split; [lia|]. apply Hup. lra.
Qed.

Lemma round_bounds (x : Q) (ndigits : nat) (za zb : Z) :
  inject_Z za <= x * inject_Z (10 ^ Z.of_nat ndigits) ->
  x * inject_Z (10 ^ Z.of_nat ndigits) <= inject_Z zb ->
  inject_Z za / inject_Z (10 ^ Z.of_nat ndigits) <= Py.round x ndigits
  /\ Py.round x ndigits <= inject_Z zb / inject_Z (10 ^ Z.of_nat ndigits).
Proof.
  intros Ha Hb. unfold Py.round. cbv zeta.
  destruct (round_half_even_bounds _ _ _ Ha Hb) as [H1 H2].
  assert (Hs : 0 < inject_Z (10 ^ Z.of_nat ndigits)).
  { rewrite <- (Zlt_Qlt 0). apply Z.pow_pos_nonneg; lia. }
  set (s := inject_Z (10 ^ Z.of_nat ndigits)) in *.
  split.
  - apply Qle_shift_div_l; [exact Hs|].
    unfold Qdiv. rewrite <- Qmult_assoc, (Qmult_comm (/ s)), Qmult_inv_r, Qmult_1_r;
      [|lra]. now rewrite <- Zle_Qle.
  - apply Qle_shift_div_r; [exact Hs|].
    unfold Qdiv. rewrite <- Qmult_assoc, (Qmult_comm (/ s)), Qmult_inv_r, Qmult_1_r;
      [|lra]. now rewrite <- Zle_Qle.
Qed.

Lemma expansion_probability_range
      (ca pa elapsed price high low close : Q) (direction : string) :
  0 <= A._calculate_expansion_probability ca pa elapsed price high low close direction
  /\ A._calculate_expansion_probability ca pa elapsed price high low close direction
     <= 1.
Proof.
  unfold A._calculate_expansion_probability. cbv zeta.
  match goal with |- 0 <= Py.max 0 (Py.min 1 ?x) /\ _ => generalize x end.
  intro x. unfold Py.max, Py.min.
  destruct (Qltb x 1) eqn:H1.
  - destruct (Qltb 0 x) eqn:H0; order_facts; split; lra.
  - destruct (Qltb 0 1) eqn:H0; [|discriminate]. split; lra.
Qed.

(** X21: the bounds of two reported numbers.  The reported expansion
    probability is always between 0 and 1; the reported confidence never
    exceeds 95 and, for a non-negative elapsed time, is at least 40. *)
Theorem X21_reported_bounds
        (self : A.predictor) (high low price elapsed close : Q) (direction : string) :
  let r := A.predict_final_amplitude self high low price elapsed close direction in
  (0 <= A.expansion_probability_out r /\ A.expansion_probability_out r <= 1)
  /\ A.confidence_out r <= 95
  /\ (0 <= elapsed -> 40 <= A.confidence_out r).
Proof.
  unfold A.predict_final_amplitude. cbv zeta.
  cbn [A.expansion_probability_out A.confidence_out].
  split; [|split].
  - match goal with
    | |- 0 <= Py.round (A._calculate_expansion_probability ?a ?b ?c ?d ?e ?f ?g ?h) 4
         /\ _ =>
        destruct (expansion_probability_range a b c d e f g h) as [H0 H1];
        destruct (round_bounds (A._calculate_expansion_probability a b c d e f g h)
                    4 0 10000) as [R0 R1]
    end.
    + change (inject_Z 0) with 0. change (inject_Z (10 ^ Z.of_nat 4)) with 10000.
      lra.
    + change (inject_Z 10000) with 10000.
      change (inject_Z (10 ^ Z.of_nat 4)) with 10000. lra.
    + split.
      * eapply Qle_trans; [|exact R0]. vm_compute. discriminate.
      * eapply Qle_trans; [exact R1|]. vm_compute. discriminate.
  - destruct (Qltb (40 + elapsed / 15.0 * 60) 95) eqn:Hm.
    + destruct (round_bounds (Py.min 95 (40 + elapsed / 15.0 * 60)) 2
                  (Qfloor (Py.min 95 (40 + elapsed / 15.0 * 60) * 100)) 9500)
        as [_ R1].
      * change (inject_Z (10 ^ Z.of_nat 2)) with 100. apply Qfloor_le.
      * change (inject_Z (10 ^ Z.of_nat 2)) with 100.
        change (inject_Z 9500) with 9500.
        unfold Py.min. rewrite Hm. order_facts. lra.
      * eapply Qle_trans; [exact R1|]. vm_compute. discriminate.
    + unfold Py.min. rewrite Hm. vm_compute. discriminate.
  - intro He.
    assert (Ht : 0 <= elapsed / 15.0).
    { apply Qle_shift_div_l; [reflexivity|]. lra. }
    set (t := elapsed / 15.0) in *.
    destruct (round_bounds (Py.min 95 (40 + t * 60)) 2 4000
                (Qceiling (Py.min 95 (40 + t * 60) * 100))) as [R0 _].
    + change (inject_Z (10 ^ Z.of_nat 2)) with 100.
      change (inject_Z 4000) with 4000.
      unfold Py.min. destruct (Qltb (40 + t * 60) 95); lra.
    + change (inject_Z (10 ^ Z.of_nat 2)) with 100. apply Qle_ceiling.
    + eapply Qle_trans; [|exact R0]. vm_compute. discriminate.
Qed.

Lemma X21_reported_bounds_witness :
  40 <= A.confidence_out
          (A.predict_final_amplitude (A.mkPredictor [] 0 []) 10 0 5 12.5 20 "compra").
Proof.
  apply (X21_reported_bounds (A.mkPredictor [] 0 []) 10 0 5 12.5 20 "compra").
  discriminate.
Defined.

(** ** The recommendation of a prediction *)

(** The five outcomes of the movement analysis, each with what it says
    about the expansion probability. *)
Lemma movement_outcomes
      (price high low close : Q) (direction : string) (pp ppp ep : Q) :
  let m := A._analyze_movement_expectation price high low close direction pp ppp ep in
  (A.expectation m = "PULLBACK"%string /\ A.confidence m = 0.75)
  \/ (A.expectation m = "GAIN_STRENGTH"%string /\ A.confidence m = 0.80 /\ 0.7 < ep)
  \/ (A.expectation m = "CONSOLIDATE"%string /\ A.confidence m = 0.70 /\ ep < 0.4)
  \/ (A.expectation m = "REVERSE_COLOR"%string /\ A.confidence m = 0.65 /\ 0.6 < ep)
  \/ (A.expectation m = "NEUTRAL"%string /\ A.confidence m = 0.50).
Proof.
  unfold A._analyze_movement_expectation. cbv zeta.
  set (gs := Qgtb ep 0.7 && _).
  set (co := Qltb ep 0.4 && _).
  set (rv := negb _ && Qgtb ep 0.6).
  set (pb := if Qgtb pp 0.75 && Qltb ppp 0.6 then true else _).
  assert (Hgs : gs = true -> 0.7 < ep).
  { unfold gs. rewrite andb_true_iff. intros [H _]. now apply Qgtb_true. }
  assert (Hco : co = true -> ep < 0.4).
  { unfold co. rewrite andb_true_iff. intros [H _]. now apply Qltb_true. }
  assert (Hrv : rv = true -> 0.6 < ep).
  { unfold rv. rewrite andb_true_iff. intros [_ H]. now apply Qgtb_true. }
  clearbody pb gs co rv.
  destruct pb, gs, co, rv; simpl;
    repeat match goal with
      | H : true = true -> _ |- _ => specialize (H eq_refl)
      | H : false = true -> _ |- _ => clear H
      end;
    first [ left; solve [auto]
          | right; left; solve [auto]
          | right; right; left; solve [auto]
          | right; right; right; left; solve [auto]
          | right; right; right; right; solve [auto] ].
Qed.

(** X22: how the parts of one recommendation hang together.  In the
    result of [predict_final_amplitude]: HIGH_CONFIDENCE is only given for
    GAIN_STRENGTH after more than 12.5 minutes with expansion expected, and
    it is the only strategy with stake HIGH; PULLBACK and REVERSE_COLOR
    always get DEFENSE (-20, LOW, HIGH); CONSOLIDATE always gets WAIT with
    stake NONE and no expansion expected; REVERSE_COLOR comes with
    expansion expected. *)
Theorem X22_recommendation_coherent
        (self : A.predictor) (high low price elapsed close : Q) (direction : string) :
  let res := A.predict_final_amplitude self high low price elapsed close direction in
  let r := A.recommendation res in
  (A.entry_strategy r = "HIGH_CONFIDENCE"%string ->
   A.movement_expectation r = "GAIN_STRENGTH"%string /\ 12.5 < elapsed
   /\ A.will_expand res = true)
  /\ (A.suggested_stake_type r = "HIGH"%string <->
      A.entry_strategy r = "HIGH_CONFIDENCE"%string)
  /\ (A.movement_expectation r = "PULLBACK"%string
      \/ A.movement_expectation r = "REVERSE_COLOR"%string ->
      A.entry_strategy r = "DEFENSE"%string /\ A.rec_confidence_modifier r = (-20)%Z
      /\ A.suggested_stake_type r = "LOW"%string /\ A.rec_risk_level r = "HIGH"%string)
  /\ (A.movement_expectation r = "CONSOLIDATE"%string ->
      A.entry_strategy r = "WAIT"%string /\ A.suggested_stake_type r = "NONE"%string
      /\ A.will_expand res = false)
  /\ (A.movement_expectation r = "REVERSE_COLOR"%string -> A.will_expand res = true).
Proof.
  unfold A.predict_final_amplitude. cbv zeta.
  cbn [A.recommendation A.will_expand].
  match goal with
  | |- context [A._calculate_expansion_probability ?a ?b ?c ?d ?e ?f ?g ?h] =>
      set (ep := A._calculate_expansion_probability a b c d e f g h)
  end.
  clearbody ep.
  unfold A._generate_strategic_recommendation. cbv zeta.
  cbn [A.entry_strategy A.movement_expectation A.suggested_stake_type
       A.rec_confidence_modifier A.rec_risk_level].
  match goal with
  | |- context [A._analyze_movement_expectation ?a ?b ?c ?d ?e ?f ?g ep] =>
      pose proof (movement_outcomes a b c d e f g ep) as Hm;
      set (m := A._analyze_movement_expectation a b c d e f g ep) in *
  end.
  cbv zeta in Hm. clearbody m.
  unfold A._determine_entry_strategy.
  destruct Hm as [[He Hc]|[(He & Hc & Hep)|[(He & Hc & Hep)|[(He & Hc & Hep)|[He Hc]]]]];
    rewrite He, Hc; simpl String.eqb; cbn [andb orb];
    change (Qgtb 0.80 0.75) with true; cbn [andb];
    destruct (Qgtb ep 0.75) eqn:H75; destruct (Qgtb elapsed 12.5) eqn:H125;
    destruct (Qgtb ep 0.5) eqn:H5; destruct (Qltb ep 0.75) eqn:H75';
    destruct (Qgtb ep 0.6) eqn:H6;
    cbn [andb A.strategy A.stake_type A.confidence_modifier A.risk_level];
    order_facts;
    try (exfalso; lra);
    repeat split; intros; try reflexivity; try discriminate; try assumption;
    try match goal with H : _ \/ _ |- _ => destruct H; discriminate end.
Qed.

Lemma X22_recommendation_coherent_witness :
  let res := A.predict_final_amplitude (A.mkPredictor [] 0 []) 10 0 30 0 5 "compra" in
  A.entry_strategy (A.recommendation res) = "DEFENSE"%string
  /\ A.rec_confidence_modifier (A.recommendation res) = (-20)%Z
  /\ A.suggested_stake_type (A.recommendation res) = "LOW"%string
  /\ A.rec_risk_level (A.recommendation res) = "HIGH"%string.
Proof.
  apply (proj1 (proj2 (proj2 (X22_recommendation_coherent
           (A.mkPredictor [] 0 []) 10 0 30 0 5 "compra")))).
  left. reflexivity.
Defined.

(** ** Responses 200 of the REST front *)

Lemma tf_valido (d : S.Pedido) :
  S.tf d = Some "M15"%string \/ S.tf d = Some "M30"%string ->
  exists t, S.tf d = Some t
            /\ negb ((t =? "M15")%string || (t =? "M30")%string) = false.
Proof.
  intros [H|H]; rewrite H; eexists; split; reflexivity.
Qed.

(** X24: the 200 responses of [predict].  A 200 is only given to a request
    that passes validation and whose partial candle has its three values
    present and convertible.  On a server already initialised every such
    request gets one, and its body carries the prediction the engine just
    stored as its last history entry: its close, "up" for Verde and "down"
    otherwise, its algorithm label as both phase and strategy, and the
    fixed confidence 0.8485. *)
Theorem X24_predict_200 (str_float : Q -> string) (agora : string)
        (d : S.Pedido) (srv : S.servidor) :
  (e_200 (fst (S.predict str_float agora (Some d) srv)) ->
   pedido_valido d /\ parcial_numerico d)
  /\ (S.engine_initialized srv = true ->
      pedido_valido d -> parcial_numerico d ->
      exists p,
        last_item (E.historico_predicoes
                     (S.engine (snd (S.predict str_float agora (Some d) srv))))
        = Some p
        /\ fst (S.predict str_float agora (Some d) srv)
           = S.Resposta200 (E.fechamento_predito p)
               (if (E.cor_predita p =? "Verde")%string then "up" else "down")
               (E.algoritmo p) (E.algoritmo p) 0.8485).
Proof.
  split.
  - unfold S.predict, pedido_valido, parcial_numerico.
    destruct (S.symbol d); [|simpl; tauto].
    destruct (S.tf d) as [t|]; [|simpl; tauto].
    destruct (S.history d) as [hi|]; [|simpl; tauto].
    destruct (S.partial_current d) as [[pa pmn pmx]|]; [|simpl; tauto].
    destruct (negb ((t =? "M15")%string || (t =? "M30")%string)) eqn:Ht;
      [simpl; tauto|].
    apply tf_suportado in Ht. simpl.
    destruct pa as [[a|m]|]; simpl; [|tauto|tauto].
    destruct pmn as [[mn|m]|]; simpl; [|tauto|tauto].
    destruct pmx as [[mx|m]|]; simpl; [|tauto|tauto].
    intros _. split.
    + repeat split; try discriminate. destruct Ht as [->| ->]; auto.
    + exists a, mn, mx. reflexivity.
  - intros Hini (Hs & Hh & Hp & Ht) (a & mn & mx & Hpar).
    unfold S.predict. rewrite Hini.
    destruct (S.symbol d); [|congruence].
    destruct (S.history d) as [hi|]; [|congruence].
    destruct (tf_valido d Ht) as (t & -> & ->).
    rewrite Hpar. simpl.
    destruct (fazer_predicao_numeric agora a mx mn (S.engine srv)) as (p & Hfp & _).
    rewrite Hfp.
    exists p. simpl. rewrite last_item_app. split; reflexivity.
Qed.

Lemma X24_predict_200_witness :
  let srv := S.mkServidor E.init true in
  exists p,
    fst (S.predict (fun _ => "9400.0"%string) "2025-12-10T03:00:00"
           (Some (S.mkPedido (Some "R_100"%string) (Some "M15"%string)
                    (Some [mkCandle (Some 9400) (Some 9420) (Some 9390) (Some 9410)])
                    (Some (S.mkParcial (Some (Numeric 9410)) (Some (Numeric 9400))
                             (Some (Numeric 9430)))))) srv)
    = S.Resposta200 (E.fechamento_predito p)
        (if (E.cor_predita p =? "Verde")%string then "up" else "down")
        (E.algoritmo p) (E.algoritmo p) 0.8485.
Proof.
  destruct (proj2 (X24_predict_200 (fun _ => "9400.0"%string) "2025-12-10T03:00:00"
              (S.mkPedido (Some "R_100"%string) (Some "M15"%string)
                 (Some [mkCandle (Some 9400) (Some 9420) (Some 9390) (Some 9410)])
                 (Some (S.mkParcial (Some (Numeric 9410)) (Some (Numeric 9400))
                          (Some (Numeric 9430))))) (S.mkServidor E.init true)))
    as (p & _ & H).
  - reflexivity.
  - repeat split; try discriminate. left. reflexivity.
  - exists 9410, 9400, 9430. reflexivity.
  - exists p. exact H.
Defined.

(** ** Growth potential and price position *)






(** ** The range the expansion probability really takes *)







